(** * Alvarium SDK, package [contracts]: enumerations, tag lookup and the
      [Annotation] JSON decoder.

    Shallow embedding of [pkg/contracts/constants.go], [pkg/contracts/layer.go]
    and [pkg/contracts/annotation.go].

    Go strings are byte sequences and are modelled by [string]; the named
    string types ([HashType], [LayerType], ...) are [string] itself, as in Go
    any string converts to them. *)

From Stdlib Require Import String Ascii List Bool NArith.
Import ListNotations.
Open Scope string_scope.

(** ** constants.go *)

Definition ContentType := string.
Definition ContentTypeJSON : ContentType := "application/json".

Definition NetType := string.
Definition Mainnet : NetType := "mainnet".
Definition Testnet : NetType := "testnet".
Definition Previewnet : NetType := "previewnet".
Definition Local : NetType := "local".

Definition NetType_Validate (t : NetType) : bool :=
  if (t =? Mainnet) || (t =? Testnet) || (t =? Previewnet) || (t =? Local)
  then true
  else false.

Definition HashType := string.
Definition MD5Hash : HashType := "md5".
Definition SHA256Hash : HashType := "sha256".
Definition NoHash : HashType := "none".

Definition HashType_Validate (t : HashType) : bool :=
  if (t =? MD5Hash) || (t =? SHA256Hash) || (t =? NoHash)
  then true
  else false.

Definition KeyAlgorithm := string.
Definition KeyEd25519 : KeyAlgorithm := "ed25519".
Definition KeyEcdsaX509 : KeyAlgorithm := "ecdsa-x509".
Definition KeyEcdsaSecp256k1 : KeyAlgorithm := "ecdsa-secp256k1".

Definition KeyAlgorithm_Validate (k : KeyAlgorithm) : bool :=
  if (k =? KeyEd25519) || (k =? KeyEcdsaX509) || (k =? KeyEcdsaSecp256k1)
  then true
  else false.

Definition StreamType := string.
Definition ConsoleStream : StreamType := "console".
Definition MockStream : StreamType := "mock".
Definition MqttStream : StreamType := "mqtt".
Definition PravegaStream : StreamType := "pravega".
Definition HederaStream : StreamType := "hedera".

Definition StreamType_Validate (t : StreamType) : bool :=
  if (t =? MockStream) || (t =? MqttStream) || (t =? PravegaStream)
     || (t =? ConsoleStream) || (t =? HederaStream)
  then true
  else false.

Definition AnnotationType := string.
Definition AnnotationPKI : AnnotationType := "pki".
Definition AnnotationPKIHttp : AnnotationType := "pki-http".
Definition AnnotationSource : AnnotationType := "src".
Definition AnnotationTLS : AnnotationType := "tls".
Definition AnnotationTPM : AnnotationType := "tpm".
Definition AnnotationSourceCode : AnnotationType := "source-code".
Definition AnnotationChecksum : AnnotationType := "checksum".
Definition AnnotationVulnerability : AnnotationType := "vulnerability".
Definition AnnotationSBOM : AnnotationType := "sbom".

(** A Go [switch t { case c1, ..., cn: ... }] on a string compares [t] with
    the listed constants from left to right. *)
Fixpoint switch_case (t : string) (cases : list string) : bool :=
  match cases with
  | [] => false
  | c :: cases' => if t =? c then true else switch_case t cases'
  end.

Definition AnnotationType_Validate (t : AnnotationType) : bool :=
  if switch_case t
       [AnnotationPKI; AnnotationTLS; AnnotationTPM; AnnotationSource;
        AnnotationPKIHttp; AnnotationSourceCode; AnnotationChecksum;
        AnnotationVulnerability]
  then true
  else false.

Definition DerivedComponent := string.
Definition Method : DerivedComponent := "@method".
Definition TargetURI : DerivedComponent := "@target-uri".
Definition Authority : DerivedComponent := "@authority".
Definition Scheme : DerivedComponent := "@scheme".
Definition Path : DerivedComponent := "@path".
Definition Query : DerivedComponent := "@query".
Definition QueryParams : DerivedComponent := "@query-params".

Definition HttpRequestKey : string := "HttpRequestKey".
Definition ContentLength : string := "Content-Length".
Definition HttpContentType : string := "Content-Type".

Definition DerivedComponent_Validate (d : DerivedComponent) : bool :=
  if (d =? Method) || (d =? Authority) || (d =? TargetURI) || (d =? Scheme)
     || (d =? Path) || (d =? Query) || (d =? QueryParams)
  then true
  else false.

Definition LayerType := string.
Definition Application : LayerType := "app".
Definition CiCd : LayerType := "cicd".
Definition Os : LayerType := "os".
Definition Host : LayerType := "host".

Definition LayerType_Validate (l : LayerType) : bool :=
  if switch_case l [Application; CiCd; Os; Host] then true else false.

(** ** layer.go

    The same enumeration under its other constant names. *)
Module layer.

Definition ApplicationLayer : LayerType := "app".
Definition CiCdLayer : LayerType := "cicd".
Definition OsLayer : LayerType := "os".
Definition HostLayer : LayerType := "host".

Definition Validate (l : LayerType) : bool :=
  if switch_case l [ApplicationLayer; CiCdLayer; OsLayer; HostLayer]
  then true
  else false.

End layer.

(** The members declared by each [const] block, in declaration order. *)
Definition NetType_members : list NetType :=
  [Mainnet; Testnet; Previewnet; Local].
Definition HashType_members : list HashType :=
  [MD5Hash; SHA256Hash; NoHash].
Definition KeyAlgorithm_members : list KeyAlgorithm :=
  [KeyEd25519; KeyEcdsaX509; KeyEcdsaSecp256k1].
Definition StreamType_members : list StreamType :=
  [ConsoleStream; MockStream; MqttStream; PravegaStream; HederaStream].
Definition AnnotationType_members : list AnnotationType :=
  [AnnotationPKI; AnnotationPKIHttp; AnnotationSource; AnnotationTLS;
   AnnotationTPM; AnnotationSourceCode; AnnotationChecksum;
   AnnotationVulnerability; AnnotationSBOM].
Definition DerivedComponent_members : list DerivedComponent :=
  [Method; TargetURI; Authority; Scheme; Path; Query; QueryParams].
Definition LayerType_members : list LayerType :=
  [Application; CiCd; Os; Host].
Definition layer_members : list LayerType :=
  [layer.ApplicationLayer; layer.CiCdLayer; layer.OsLayer; layer.HostLayer].

(** ** annotation.go: the process state and the tag lookup *)

Definition TagEnvKey : string := "TAG".

(** Code that reads or changes the state of the process (environment
    variables, clock, entropy, the state captured by a closure) is a state
    transformer over a type [W] of process states. *)
Definition M (W A : Type) : Type := W -> A * W.

Definition ret {W A : Type} (a : A) : M W A := fun w => (a, w).

Definition bind {W A B : Type} (c : M W A) (k : A -> M W B) : M W B :=
  fun w => let (a, w') := c w in k a w'.

Notation "x <- c ;; k" := (bind c (fun x => k))
  (at level 61, c at next level, right associativity).

(** What the package takes from outside of these files: [os.Getenv],
    [time.Now] and the package's own [NewULID], over the types [ulid.ULID]
    and [time.Time]. [os.Getenv] only reads the state. *)
Class Process (W ULID Time : Type) : Type := {
  os_Getenv : string -> W -> string;
  NewULID : M W ULID;
  time_Now : M W Time
}.

Module Annotation.

Record t {ULID Time : Type} : Type := Build {
  Id : ULID;
  Key : string;
  Hash : HashType;
  Host : string;
  Tag : string;
  Layer : LayerType;
  Kind : AnnotationType;
  Signature : string;
  IsSatisfied : bool;
  Timestamp : Time
}.
Arguments t : clear implicits.

(** The assignment [a.F = v]. *)
Definition set_Id {ULID Time : Type} (v : ULID) (a : t ULID Time)
  : t ULID Time :=
  {| Id := v; Key := Key a; Hash := Hash a; Host := Host a; Tag := Tag a;
     Layer := Layer a; Kind := Kind a; Signature := Signature a;
     IsSatisfied := IsSatisfied a; Timestamp := Timestamp a |}.

Definition set_Key {ULID Time : Type} (v : string) (a : t ULID Time)
  : t ULID Time :=
  {| Id := Id a; Key := v; Hash := Hash a; Host := Host a; Tag := Tag a;
     Layer := Layer a; Kind := Kind a; Signature := Signature a;
     IsSatisfied := IsSatisfied a; Timestamp := Timestamp a |}.

Definition set_Hash {ULID Time : Type} (v : HashType) (a : t ULID Time)
  : t ULID Time :=
  {| Id := Id a; Key := Key a; Hash := v; Host := Host a; Tag := Tag a;
     Layer := Layer a; Kind := Kind a; Signature := Signature a;
     IsSatisfied := IsSatisfied a; Timestamp := Timestamp a |}.

Definition set_Host {ULID Time : Type} (v : string) (a : t ULID Time)
  : t ULID Time :=
  {| Id := Id a; Key := Key a; Hash := Hash a; Host := v; Tag := Tag a;
     Layer := Layer a; Kind := Kind a; Signature := Signature a;
     IsSatisfied := IsSatisfied a; Timestamp := Timestamp a |}.

Definition set_Tag {ULID Time : Type} (v : string) (a : t ULID Time)
  : t ULID Time :=
  {| Id := Id a; Key := Key a; Hash := Hash a; Host := Host a; Tag := v;
     Layer := Layer a; Kind := Kind a; Signature := Signature a;
     IsSatisfied := IsSatisfied a; Timestamp := Timestamp a |}.

Definition set_Layer {ULID Time : Type} (v : LayerType) (a : t ULID Time)
  : t ULID Time :=
  {| Id := Id a; Key := Key a; Hash := Hash a; Host := Host a;
     Tag := Tag a; Layer := v; Kind := Kind a; Signature := Signature a;
     IsSatisfied := IsSatisfied a; Timestamp := Timestamp a |}.

Definition set_Kind {ULID Time : Type} (v : AnnotationType) (a : t ULID Time)
  : t ULID Time :=
  {| Id := Id a; Key := Key a; Hash := Hash a; Host := Host a;
     Tag := Tag a; Layer := Layer a; Kind := v; Signature := Signature a;
     IsSatisfied := IsSatisfied a; Timestamp := Timestamp a |}.

Definition set_Signature {ULID Time : Type} (v : string) (a : t ULID Time)
  : t ULID Time :=
  {| Id := Id a; Key := Key a; Hash := Hash a; Host := Host a;
     Tag := Tag a; Layer := Layer a; Kind := Kind a; Signature := v;
     IsSatisfied := IsSatisfied a; Timestamp := Timestamp a |}.

Definition set_IsSatisfied {ULID Time : Type} (v : bool) (a : t ULID Time)
  : t ULID Time :=
  {| Id := Id a; Key := Key a; Hash := Hash a; Host := Host a;
     Tag := Tag a; Layer := Layer a; Kind := Kind a;
     Signature := Signature a; IsSatisfied := v; Timestamp := Timestamp a |}.

Definition set_Timestamp {ULID Time : Type} (v : Time) (a : t ULID Time)
  : t ULID Time :=
  {| Id := Id a; Key := Key a; Hash := Hash a; Host := Host a;
     Tag := Tag a; Layer := Layer a; Kind := Kind a;
     Signature := Signature a; IsSatisfied := IsSatisfied a;
     Timestamp := v |}.

End Annotation.

Section Tags.

Context {W ULID Time : Type} {P : Process W ULID Time}.

Definition TagValueGetter : Type := LayerType -> M W string.

Definition defaultGetTagValue : TagValueGetter :=
  fun layer =>
    if switch_case layer [Application]
    then fun w => (os_Getenv TagEnvKey w, w)
    else ret "".

(** The package-level variable [CurrentTagValueGetter]. *)
Record Globals : Type := {
  CurrentTagValueGetter : TagValueGetter
}.

Definition initGlobals : Globals :=
  {| CurrentTagValueGetter := defaultGetTagValue |}.

Definition SetCurrentTagValueGetter (getTag : TagValueGetter) (g : Globals)
  : Globals :=
  {| CurrentTagValueGetter := getTag |}.

Definition GetTagValue (g : Globals) (layer : LayerType) : M W string :=
  tagValue <- CurrentTagValueGetter g layer ;;
  if negb (tagValue =? "")
  then ret tagValue
  else defaultGetTagValue layer.

(** The calls in the composite literal run in the order they are written:
    [NewULID()], [GetTagValue(layer)], [time.Now()]. [Signature] is not
    listed and keeps its zero value. *)
Definition NewAnnotation (g : Globals) (key : string) (hash : HashType)
    (host : string) (layer : LayerType) (kind : AnnotationType)
    (satisfied : bool) : M W (Annotation.t ULID Time) :=
  id <- NewULID ;;
  tag <- GetTagValue g layer ;;
  now <- time_Now ;;
  ret {| Annotation.Id := id;
         Annotation.Key := key;
         Annotation.Hash := hash;
         Annotation.Host := host;
         Annotation.Tag := tag;
         Annotation.Layer := layer;
         Annotation.Kind := kind;
         Annotation.Signature := "";
         Annotation.IsSatisfied := satisfied;
         Annotation.Timestamp := now |}.

End Tags.

(** ** encoding/json, as far as [Annotation] uses it

    A document is a tree of JSON values; the bytes are turned into a tree by
    the scanner of the library and a tree into bytes by its printer. *)
#[warnings="-register-all"]
Inductive json : Type :=
| JNull
| JBool (b : bool)
| JNumber (literal : string)
| JString (s : string)
| JArray (elements : list json)
| JObject (members : list (string * json)).

(** The errors that reach a caller of [UnmarshalJSON]. *)
Inductive error : Type :=
| SyntaxError
| UnmarshalTypeError (Value Type_ Struct Field : string)
| ForeignError (msg : string)
| errorString (msg : string).

Inductive result (A : Type) : Type :=
| Ok (a : A)
| Err (e : error).
Arguments Ok {A} a.
Arguments Err {A} e.

(** Storing a JSON value into a Go value: it is stored, or the mismatch is
    recorded and decoding goes on, or decoding stops with an error. *)
Inductive stored (A : Type) : Type :=
| Stored (v : A)
| Saved (e : error)
| Aborted (e : error).
Arguments Stored {A} v.
Arguments Saved {A} e.
Arguments Aborted {A} e.

Definition valueKind (v : json) : string :=
  match v with
  | JNull => "null"
  | JBool _ => "bool"
  | JNumber _ => "number"
  | JString _ => "string"
  | JArray _ => "array"
  | JObject _ => "object"
  end.

(** How a Go type is written to and read from JSON ([json.Marshaler],
    [json.Unmarshaler], [encoding.TextMarshaler], or the built-in rules of the
    kind of the type). [decodeValue v cur] stores [v] into a location that
    holds [cur]. *)
Class JSONValue (A : Type) : Type := {
  zeroValue : A;
  encodeValue : A -> result json;
  decodeValue : json -> A -> stored A
}.

(** Go strings and every named type of kind string: a JSON string is stored,
    [null] has no effect, anything else is a recorded type mismatch. *)
#[export] Instance string_JSONValue : JSONValue string := {|
  zeroValue := "";
  encodeValue := fun s => Ok (JString s);
  decodeValue := fun v cur =>
    match v with
    | JString s => Stored s
    | JNull => Stored cur
    | _ => Saved (UnmarshalTypeError (valueKind v) "string" "" "")
    end
|}.

#[export] Instance bool_JSONValue : JSONValue bool := {|
  zeroValue := false;
  encodeValue := fun b => Ok (JBool b);
  decodeValue := fun v cur =>
    match v with
    | JBool b => Stored b
    | JNull => Stored cur
    | _ => Saved (UnmarshalTypeError (valueKind v) "bool" "" "")
    end
|}.

(** The part of the library that works on bytes and on key names: the
    scanner ([None] on input that is not valid JSON), the printer, and the
    case folding under which an object key matches a field name. *)
Class Syntax : Type := {
  json_scan : string -> option json;
  json_print : json -> string;
  foldName : string -> string
}.

(** [fmt.Sprintf] for formats whose only verb is [%s]. *)
Fixpoint fmt_Sprintf (format : string) (args : list string) : string :=
  match format with
  | String "%" (String "s" rest) =>
      match args with
      | a :: args' => a ++ fmt_Sprintf rest args'
      | [] => "%!s(MISSING)" ++ fmt_Sprintf rest []
      end
  | String c rest => String c (fmt_Sprintf rest args)
  | EmptyString => EmptyString
  end.

Definition fmt_Errorf (format : string) (args : list string) : error :=
  errorString (fmt_Sprintf format args).

(** The local type [Alias] of [UnmarshalJSON]: the fields of [Annotation]
    without their tags. *)
Module Alias.

Record t {ULID Time : Type} : Type := Build {
  Id : ULID;
  Key : string;
  Hash : HashType;
  Host : string;
  Tag : string;
  Layer : LayerType;
  Kind : AnnotationType;
  Signature : string;
  IsSatisfied : bool;
  Timestamp : Time
}.
Arguments t : clear implicits.

(** The assignment [x.F = v]. *)
Definition set_Id {ULID Time : Type} (v : ULID) (x : t ULID Time)
  : t ULID Time :=
  {| Id := v; Key := Key x; Hash := Hash x; Host := Host x; Tag := Tag x;
     Layer := Layer x; Kind := Kind x; Signature := Signature x;
     IsSatisfied := IsSatisfied x; Timestamp := Timestamp x |}.

Definition set_Key {ULID Time : Type} (v : string) (x : t ULID Time)
  : t ULID Time :=
  {| Id := Id x; Key := v; Hash := Hash x; Host := Host x; Tag := Tag x;
     Layer := Layer x; Kind := Kind x; Signature := Signature x;
     IsSatisfied := IsSatisfied x; Timestamp := Timestamp x |}.

Definition set_Hash {ULID Time : Type} (v : HashType) (x : t ULID Time)
  : t ULID Time :=
  {| Id := Id x; Key := Key x; Hash := v; Host := Host x; Tag := Tag x;
     Layer := Layer x; Kind := Kind x; Signature := Signature x;
     IsSatisfied := IsSatisfied x; Timestamp := Timestamp x |}.

Definition set_Host {ULID Time : Type} (v : string) (x : t ULID Time)
  : t ULID Time :=
  {| Id := Id x; Key := Key x; Hash := Hash x; Host := v; Tag := Tag x;
     Layer := Layer x; Kind := Kind x; Signature := Signature x;
     IsSatisfied := IsSatisfied x; Timestamp := Timestamp x |}.

Definition set_Tag {ULID Time : Type} (v : string) (x : t ULID Time)
  : t ULID Time :=
  {| Id := Id x; Key := Key x; Hash := Hash x; Host := Host x; Tag := v;
     Layer := Layer x; Kind := Kind x; Signature := Signature x;
     IsSatisfied := IsSatisfied x; Timestamp := Timestamp x |}.

Definition set_Layer {ULID Time : Type} (v : LayerType) (x : t ULID Time)
  : t ULID Time :=
  {| Id := Id x; Key := Key x; Hash := Hash x; Host := Host x;
     Tag := Tag x; Layer := v; Kind := Kind x; Signature := Signature x;
     IsSatisfied := IsSatisfied x; Timestamp := Timestamp x |}.

Definition set_Kind {ULID Time : Type} (v : AnnotationType) (x : t ULID Time)
  : t ULID Time :=
  {| Id := Id x; Key := Key x; Hash := Hash x; Host := Host x;
     Tag := Tag x; Layer := Layer x; Kind := v; Signature := Signature x;
     IsSatisfied := IsSatisfied x; Timestamp := Timestamp x |}.

Definition set_Signature {ULID Time : Type} (v : string) (x : t ULID Time)
  : t ULID Time :=
  {| Id := Id x; Key := Key x; Hash := Hash x; Host := Host x;
     Tag := Tag x; Layer := Layer x; Kind := Kind x; Signature := v;
     IsSatisfied := IsSatisfied x; Timestamp := Timestamp x |}.

Definition set_IsSatisfied {ULID Time : Type} (v : bool) (x : t ULID Time)
  : t ULID Time :=
  {| Id := Id x; Key := Key x; Hash := Hash x; Host := Host x;
     Tag := Tag x; Layer := Layer x; Kind := Kind x;
     Signature := Signature x; IsSatisfied := v; Timestamp := Timestamp x |}.

Definition set_Timestamp {ULID Time : Type} (v : Time) (x : t ULID Time)
  : t ULID Time :=
  {| Id := Id x; Key := Key x; Hash := Hash x; Host := Host x;
     Tag := Tag x; Layer := Layer x; Kind := Kind x;
     Signature := Signature x; IsSatisfied := IsSatisfied x;
     Timestamp := v |}.

Inductive field : Type :=
| FId | FKey | FHash | FHost | FTag | FLayer | FKind | FSignature
| FIsSatisfied | FTimestamp.

Definition fields : list field :=
  [FId; FKey; FHash; FHost; FTag; FLayer; FKind; FSignature; FIsSatisfied;
   FTimestamp].

Definition name (f : field) : string :=
  match f with
  | FId => "Id"
  | FKey => "Key"
  | FHash => "Hash"
  | FHost => "Host"
  | FTag => "Tag"
  | FLayer => "Layer"
  | FKind => "Kind"
  | FSignature => "Signature"
  | FIsSatisfied => "IsSatisfied"
  | FTimestamp => "Timestamp"
  end.

End Alias.

Section Decoding.

Context {ULID Time : Type}.
Context {JU : JSONValue ULID} {JT : JSONValue Time} {S : Syntax}.

(** [x := Alias{}] *)
Definition Alias_zero : Alias.t ULID Time :=
  {| Alias.Id := zeroValue;
     Alias.Key := "";
     Alias.Hash := "";
     Alias.Host := "";
     Alias.Tag := "";
     Alias.Layer := "";
     Alias.Kind := "";
     Alias.Signature := "";
     Alias.IsSatisfied := false;
     Alias.Timestamp := zeroValue |}.

(** The field an object key is stored into: the field of that exact name,
    else the first field whose name equals the key after case folding. A key
    that matches no field is skipped. *)
Definition findField (key : string) : option Alias.field :=
  match find (fun f => Alias.name f =? key) Alias.fields with
  | Some f => Some f
  | None =>
      find (fun f => foldName (Alias.name f) =? foldName key) Alias.fields
  end.

(** A type mismatch found inside a struct is reported with the names of the
    struct and of the field. *)
Definition addErrorContext (f : Alias.field) (e : error) : error :=
  match e with
  | UnmarshalTypeError v t _ _ => UnmarshalTypeError v t "Alias" (Alias.name f)
  | _ => e
  end.

Definition storeInto {A : Type} (f : Alias.field) (r : stored A)
    (set : A -> Alias.t ULID Time) : stored (Alias.t ULID Time) :=
  match r with
  | Stored v => Stored (set v)
  | Saved e => Saved (addErrorContext f e)
  | Aborted e => Aborted (addErrorContext f e)
  end.

Definition storeField (f : Alias.field) (v : json) (x : Alias.t ULID Time)
  : stored (Alias.t ULID Time) :=
  match f with
  | Alias.FId =>
      storeInto f (decodeValue v (Alias.Id x)) (fun u => Alias.set_Id u x)
  | Alias.FKey =>
      storeInto f (decodeValue v (Alias.Key x)) (fun u => Alias.set_Key u x)
  | Alias.FHash =>
      storeInto f (decodeValue v (Alias.Hash x)) (fun u => Alias.set_Hash u x)
  | Alias.FHost =>
      storeInto f (decodeValue v (Alias.Host x)) (fun u => Alias.set_Host u x)
  | Alias.FTag =>
      storeInto f (decodeValue v (Alias.Tag x)) (fun u => Alias.set_Tag u x)
  | Alias.FLayer =>
      storeInto f (decodeValue v (Alias.Layer x))
        (fun u => Alias.set_Layer u x)
  | Alias.FKind =>
      storeInto f (decodeValue v (Alias.Kind x)) (fun u => Alias.set_Kind u x)
  | Alias.FSignature =>
      storeInto f (decodeValue v (Alias.Signature x))
        (fun u => Alias.set_Signature u x)
  | Alias.FIsSatisfied =>
      storeInto f (decodeValue v (Alias.IsSatisfied x))
        (fun u => Alias.set_IsSatisfied u x)
  | Alias.FTimestamp =>
      storeInto f (decodeValue v (Alias.Timestamp x))
        (fun u => Alias.set_Timestamp u x)
  end.

(** Only the first recorded mismatch is kept. *)
Definition saveError (saved : option error) (e : error) : option error :=
  match saved with
  | Some _ => saved
  | None => Some e
  end.

(** The members of an object are stored one after the other, in the order
    of the document, so that a later member overwrites an earlier one. *)
Fixpoint decodeObject (members : list (string * json))
    (x : Alias.t ULID Time) (saved : option error)
  : Alias.t ULID Time * option error :=
  match members with
  | [] => (x, saved)
  | (key, v) :: rest =>
      match findField key with
      | None => decodeObject rest x saved
      | Some f =>
          match storeField f v x with
          | Stored x' => decodeObject rest x' saved
          | Saved e => decodeObject rest x (saveError saved e)
          | Aborted e => (x, Some e)
          end
      end
  end.

(** [json.Unmarshal(data, &x)] for [x] of type [Alias]: the updated [x] and
    the error. *)
Definition json_Unmarshal (data : string) (x : Alias.t ULID Time)
  : Alias.t ULID Time * option error :=
  match json_scan data with
  | None => (x, Some SyntaxError)
  | Some JNull => (x, None)
  | Some (JObject members) => decodeObject members x None
  | Some v => (x, Some (UnmarshalTypeError (valueKind v) "Alias" "" ""))
  end.

(** [func (a *Annotation) UnmarshalJSON(data []byte) (err error)]: the
    receiver after the call and the error. *)
Definition UnmarshalJSON (data : string) (a : Annotation.t ULID Time)
  : Annotation.t ULID Time * option error :=
  let x := Alias_zero in
  let (x, err) := json_Unmarshal data x in
  match err with
  | Some e => (a, Some e)
  | None =>
      if negb (HashType_Validate (Alias.Hash x))
      then (a, Some (fmt_Errorf "invalid HashType value provided %s"
                       [Alias.Hash x]))
      else
      if negb (AnnotationType_Validate (Alias.Kind x))
      then (a, Some (fmt_Errorf "invalid AnnotationType value provided %s"
                       [Alias.Kind x]))
      else
        let a := Annotation.set_Id (Alias.Id x) a in
        let a := Annotation.set_Key (Alias.Key x) a in
        let a := Annotation.set_Hash (Alias.Hash x) a in
        let a := Annotation.set_Host (Alias.Host x) a in
        let a := Annotation.set_Tag (Alias.Tag x) a in
        let a := Annotation.set_Layer (Alias.Layer x) a in
        let a := Annotation.set_Kind (Alias.Kind x) a in
        let a := Annotation.set_Signature (Alias.Signature x) a in
        let a := Annotation.set_IsSatisfied (Alias.IsSatisfied x) a in
        let a := Annotation.set_Timestamp (Alias.Timestamp x) a in
        (a, None)
  end.

(** A string field tagged [omitempty] is left out when it is empty. *)
Definition omitempty (key : string) (s : string) : list (string * json) :=
  if s =? "" then [] else [(key, JString s)].

(** The JSON shape of an [Annotation], from the tags of its fields. [Id] is
    an array of 16 bytes and [Timestamp] a struct: [omitempty] never drops
    them. *)
Definition encodeAnnotation (a : Annotation.t ULID Time) : result json :=
  match encodeValue (Annotation.Id a) with
  | Err e => Err e
  | Ok id =>
      match encodeValue (Annotation.Timestamp a) with
      | Err e => Err e
      | Ok timestamp =>
          Ok (JObject
                ([("id", id)]
                 ++ omitempty "key" (Annotation.Key a)
                 ++ omitempty "hash" (Annotation.Hash a)
                 ++ omitempty "host" (Annotation.Host a)
                 ++ omitempty "tag" (Annotation.Tag a)
                 ++ omitempty "layer" (Annotation.Layer a)
                 ++ omitempty "kind" (Annotation.Kind a)
                 ++ omitempty "signature" (Annotation.Signature a)
                 ++ [("isSatisfied", JBool (Annotation.IsSatisfied a))]
                 ++ [("timestamp", timestamp)]))
      end
  end.

(** [json.Marshal(a)] *)
Definition json_Marshal (a : Annotation.t ULID Time) : result string :=
  match encodeAnnotation a with
  | Err e => Err e
  | Ok doc => Ok (json_print doc)
  end.

End Decoding.

(** ** Reading a document

    What a document says about a field of the JSON shape, to state the
    properties of the decoder. *)
Definition field_eqb (f g : Alias.field) : bool :=
  match f, g with
  | Alias.FId, Alias.FId
  | Alias.FKey, Alias.FKey
  | Alias.FHash, Alias.FHash
  | Alias.FHost, Alias.FHost
  | Alias.FTag, Alias.FTag
  | Alias.FLayer, Alias.FLayer
  | Alias.FKind, Alias.FKind
  | Alias.FSignature, Alias.FSignature
  | Alias.FIsSatisfied, Alias.FIsSatisfied
  | Alias.FTimestamp, Alias.FTimestamp => true
  | _, _ => false
  end.

Section Documents.

Context {S : Syntax}.

(** The key [key] names the field [f]. *)
Definition names (key : string) (f : Alias.field) : bool :=
  match findField key with
  | Some f' => field_eqb f' f
  | None => false
  end.

(** The value of the last member that names [f]; [None] when no member
    does. *)
Fixpoint fieldValue (f : Alias.field) (members : list (string * json))
  : option json :=
  match members with
  | [] => None
  | (key, v) :: rest =>
      match fieldValue f rest with
      | Some v' => Some v'
      | None => if names key f then Some v else None
      end
  end.

(** The value a document gives to [f]: a document that is not an object
    gives none. *)
Definition memberValue (doc : json) (f : Alias.field) : option json :=
  match doc with
  | JObject members => fieldValue f members
  | _ => None
  end.

End Documents.

(** The string held by a field of kind string. *)
Definition stringOf {ULID Time : Type} (f : Alias.field)
    (x : Alias.t ULID Time) : option string :=
  match f with
  | Alias.FKey => Some (Alias.Key x)
  | Alias.FHash => Some (Alias.Hash x)
  | Alias.FHost => Some (Alias.Host x)
  | Alias.FTag => Some (Alias.Tag x)
  | Alias.FLayer => Some (Alias.Layer x)
  | Alias.FKind => Some (Alias.Kind x)
  | Alias.FSignature => Some (Alias.Signature x)
  | Alias.FId | Alias.FIsSatisfied | Alias.FTimestamp => None
  end.

(** The string held by a field of kind string of an [Annotation]. *)
Definition Annotation_stringOf {ULID Time : Type} (f : Alias.field)
    (a : Annotation.t ULID Time) : option string :=
  match f with
  | Alias.FKey => Some (Annotation.Key a)
  | Alias.FHash => Some (Annotation.Hash a)
  | Alias.FHost => Some (Annotation.Host a)
  | Alias.FTag => Some (Annotation.Tag a)
  | Alias.FLayer => Some (Annotation.Layer a)
  | Alias.FKind => Some (Annotation.Kind a)
  | Alias.FSignature => Some (Annotation.Signature a)
  | Alias.FId | Alias.FIsSatisfied | Alias.FTimestamp => None
  end.

(** The receiver after the ten assignments from [x]. *)
Definition assignAll {ULID Time : Type} (x : Alias.t ULID Time)
  : Annotation.t ULID Time :=
  {| Annotation.Id := Alias.Id x;
     Annotation.Key := Alias.Key x;
     Annotation.Hash := Alias.Hash x;
     Annotation.Host := Alias.Host x;
     Annotation.Tag := Alias.Tag x;
     Annotation.Layer := Alias.Layer x;
     Annotation.Kind := Alias.Kind x;
     Annotation.Signature := Alias.Signature x;
     Annotation.IsSatisfied := Alias.IsSatisfied x;
     Annotation.Timestamp := Alias.Timestamp x |}.

(** The error [UnmarshalJSON] builds for a rejected [hash] and for a
    rejected [kind]. *)
Definition invalidHash (h : HashType) : error :=
  errorString ("invalid HashType value provided " ++ h).

Definition invalidKind (k : AnnotationType) : error :=
  errorString ("invalid AnnotationType value provided " ++ k).

(** ** An instance to run the model on concrete documents

    A scanner and a printer for JSON texts, ASCII case folding, and
    stand-ins for [ulid.ULID], [time.Time] and the process state. The
    theorems below hold for every instance; this one evaluates them. *)
Module Ref.

(** The quote character. *)
Definition dquote : ascii := ascii_of_nat 34.

Definition is_space (c : ascii) : bool :=
  (c =? " ")%char || (c =? "009")%char || (c =? "010")%char
  || (c =? "013")%char.

Fixpoint skip_space (s : string) : string :=
  match s with
  | String c r => if is_space c then skip_space r else s
  | EmptyString => s
  end.

Definition hex_digit (c : ascii) : option N :=
  let n := N_of_ascii c in
  if (48 <=? n)%N && (n <=? 57)%N then Some (n - 48)%N
  else if (65 <=? n)%N && (n <=? 70)%N then Some (n - 55)%N
  else if (97 <=? n)%N && (n <=? 102)%N then Some (n - 87)%N
  else None.

Definition hex4 (a b c d : ascii) : option N :=
  match hex_digit a, hex_digit b, hex_digit c, hex_digit d with
  | Some x, Some y, Some z, Some t => Some (((x * 16 + y) * 16 + z) * 16 + t)%N
  | _, _, _, _ => None
  end.

Definition byte (n : N) : ascii := ascii_of_N n.

(** UTF-8 encoding of a code point. *)
Definition utf8 (r : N) (rest : string) : string :=
  if (r <? 128)%N then String (byte r) rest
  else if (r <? 2048)%N then
    String (byte (192 + r / 64)%N) (String (byte (128 + r mod 64)%N) rest)
  else if (r <? 65536)%N then
    String (byte (224 + r / 4096)%N)
      (String (byte (128 + (r / 64) mod 64)%N)
         (String (byte (128 + r mod 64)%N) rest))
  else
    String (byte (240 + r / 262144)%N)
      (String (byte (128 + (r / 4096) mod 64)%N)
         (String (byte (128 + (r / 64) mod 64)%N)
            (String (byte (128 + r mod 64)%N) rest))).

Definition is_high_surrogate (r : N) : bool :=
  (55296 <=? r)%N && (r <? 56320)%N.
Definition is_low_surrogate (r : N) : bool :=
  (56320 <=? r)%N && (r <? 57344)%N.

Definition simple_escape (c : ascii) : option ascii :=
  if (c =? dquote)%char then Some dquote
  else if (c =? "\")%char then Some "\"%char
  else if (c =? "/")%char then Some "/"%char
  else if (c =? "b")%char then Some "008"%char
  else if (c =? "f")%char then Some "012"%char
  else if (c =? "n")%char then Some "010"%char
  else if (c =? "r")%char then Some "013"%char
  else if (c =? "t")%char then Some "009"%char
  else None.

Definition cons_char (c : ascii) (r : option (string * string))
  : option (string * string) :=
  match r with
  | Some (s, rest) => Some (String c s, rest)
  | None => None
  end.

Definition cons_rune (n : N) (r : option (string * string))
  : option (string * string) :=
  match r with
  | Some (s, rest) => Some (utf8 n s, rest)
  | None => None
  end.

(** The characters of a string literal up to its closing quote, and the
    input after it. *)
Fixpoint scan_chars (s : string) : option (string * string) :=
  match s with
  | EmptyString => None
  | String c r =>
      if (c =? dquote)%char then Some (EmptyString, r)
      else if (c =? "\")%char then
        match r with
        | String "u" (String h1 (String h2 (String h3 (String h4 r4)))) =>
            match hex4 h1 h2 h3 h4 with
            | None => None
            | Some n =>
                if is_high_surrogate n then
                  match r4 with
                  | String "\" (String "u"
                      (String l1 (String l2 (String l3 (String l4 r10))))) =>
                      match hex4 l1 l2 l3 l4 with
                      | Some m =>
                          if is_low_surrogate m
                          then cons_rune
                                 (65536 + (n - 55296) * 1024 + (m - 56320))%N
                                 (scan_chars r10)
                          else cons_rune 65533%N (scan_chars r4)
                      | None => cons_rune 65533%N (scan_chars r4)
                      end
                  | _ => cons_rune 65533%N (scan_chars r4)
                  end
                else if is_low_surrogate n then
                  cons_rune 65533%N (scan_chars r4)
                else cons_rune n (scan_chars r4)
            end
        | String e r1 =>
            match simple_escape e with
            | Some c' => cons_char c' (scan_chars r1)
            | None => None
            end
        | EmptyString => None
        end
      else if (N_of_ascii c <? 32)%N then None
      else cons_char c (scan_chars r)
  end.

Definition is_digit (c : ascii) : bool :=
  (48 <=? N_of_ascii c)%N && (N_of_ascii c <=? 57)%N.

Fixpoint scan_digits (s : string) : string * string :=
  match s with
  | String c r =>
      if is_digit c
      then let (ds, rest) := scan_digits r in (String c ds, rest)
      else (EmptyString, s)
  | EmptyString => (EmptyString, s)
  end.

(** A number literal: an optional minus sign, an integer part without a
    leading zero, an optional fraction and an optional exponent. *)
Definition scan_int (s : string) : option (string * string) :=
  match s with
  | String "0" r => Some ("0", r)
  | String c r =>
      if is_digit c
      then let (ds, rest) := scan_digits r in Some (String c ds, rest)
      else None
  | EmptyString => None
  end.

Definition scan_frac (s : string) : option (string * string) :=
  match s with
  | String "." r =>
      match scan_digits r with
      | (EmptyString, _) => None
      | (ds, rest) => Some (String "." ds, rest)
      end
  | _ => Some (EmptyString, s)
  end.

Definition scan_exp (s : string) : option (string * string) :=
  let digits (pre r : string) :=
    match scan_digits r with
    | (EmptyString, _) => None
    | (ds, rest) => Some (pre ++ ds, rest)
    end in
  match s with
  | String e r =>
      if (e =? "e")%char || (e =? "E")%char then
        match r with
        | String "+" r' => digits (String e "+") r'
        | String "-" r' => digits (String e "-") r'
        | _ => digits (String e EmptyString) r
        end
      else Some (EmptyString, s)
  | EmptyString => Some (EmptyString, s)
  end.

Definition scan_number (s : string) : option (string * string) :=
  let (sign, s0) :=
    match s with
    | String "-" r => ("-", r)
    | _ => (EmptyString, s)
    end in
  match scan_int s0 with
  | None => None
  | Some (i, s1) =>
      match scan_frac s1 with
      | None => None
      | Some (f, s2) =>
          match scan_exp s2 with
          | None => None
          | Some (e, s3) => Some (sign ++ i ++ f ++ e, s3)
          end
      end
  end.

(** A value, the members of an object after its brace, the elements of an
    array after its bracket. Every call consumes input, so the length of the
    input bounds the depth of the calls. *)
Fixpoint scan_value (fuel : nat) (s : string) {struct fuel}
  : option (json * string) :=
  match fuel with
  | O => None
  | S n =>
      match skip_space s with
      | String "{" r =>
          match skip_space r with
          | String "}" r' => Some (JObject [], r')
          | _ =>
              match scan_members n r with
              | Some (ms, r') => Some (JObject ms, r')
              | None => None
              end
          end
      | String "[" r =>
          match skip_space r with
          | String "]" r' => Some (JArray [], r')
          | _ =>
              match scan_elements n r with
              | Some (es, r') => Some (JArray es, r')
              | None => None
              end
          end
      | String "t" (String "r" (String "u" (String "e" r))) =>
          Some (JBool true, r)
      | String "f" (String "a" (String "l" (String "s" (String "e" r)))) =>
          Some (JBool false, r)
      | String "n" (String "u" (String "l" (String "l" r))) =>
          Some (JNull, r)
      | String c r =>
          if (c =? dquote)%char then
            match scan_chars r with
            | Some (str, r') => Some (JString str, r')
            | None => None
            end
          else
            match scan_number (String c r) with
            | Some (lit, r') => Some (JNumber lit, r')
            | None => None
            end
      | EmptyString => None
      end
  end
with scan_members (fuel : nat) (s : string) {struct fuel}
  : option (list (string * json) * string) :=
  match fuel with
  | O => None
  | S n =>
      match skip_space s with
      | String c r =>
          if negb (c =? dquote)%char then None else
          match scan_chars r with
          | None => None
          | Some (key, r1) =>
              match skip_space r1 with
              | String ":" r2 =>
                  match scan_value n r2 with
                  | None => None
                  | Some (v, r3) =>
                      match skip_space r3 with
                      | String "," r4 =>
                          match scan_members n r4 with
                          | Some (ms, r5) => Some ((key, v) :: ms, r5)
                          | None => None
                          end
                      | String "}" r4 => Some ([(key, v)], r4)
                      | _ => None
                      end
                  end
              | _ => None
              end
          end
      | EmptyString => None
      end
  end
with scan_elements (fuel : nat) (s : string) {struct fuel}
  : option (list json * string) :=
  match fuel with
  | O => None
  | S n =>
      match scan_value n s with
      | None => None
      | Some (v, r) =>
          match skip_space r with
          | String "," r' =>
              match scan_elements n r' with
              | Some (es, r'') => Some (v :: es, r'')
              | None => None
              end
          | String "]" r' => Some ([v], r')
          | _ => None
          end
      end
  end.

(** A document is one value between optional white space. *)
Definition scan (data : string) : option json :=
  match scan_value (S (String.length data)) data with
  | Some (v, rest) =>
      match skip_space rest with
      | EmptyString => Some v
      | _ => None
      end
  | None => None
  end.

Definition hex_char (n : N) : ascii :=
  if (n <? 10)%N then ascii_of_N (48 + n) else ascii_of_N (87 + n).

(** The printer writes the quote, the backslash, the control characters and
    the three characters [<], [>], [&] as escapes. *)
Fixpoint print_chars (s : string) : string :=
  match s with
  | EmptyString => EmptyString
  | String c r =>
      let n := N_of_ascii c in
      if (c =? dquote)%char then String "\" (String dquote (print_chars r))
      else if (c =? "\")%char then String "\" (String "\" (print_chars r))
      else if (c =? "010")%char then String "\" (String "n" (print_chars r))
      else if (c =? "013")%char then String "\" (String "r" (print_chars r))
      else if (c =? "009")%char then String "\" (String "t" (print_chars r))
      else if (n <? 32)%N || (c =? "<")%char || (c =? ">")%char
              || (c =? "&")%char
      then String "\" (String "u" (String "0" (String "0"
             (String (hex_char (n / 16)) (String (hex_char (n mod 16))
                (print_chars r))))))
      else String c (print_chars r)
  end.

Definition quote (s : string) : string :=
  String dquote (print_chars s ++ String dquote EmptyString).

(** A JSON text written with the apostrophe in the place of the quote
    character. *)
Fixpoint doc (s : string) : string :=
  match s with
  | EmptyString => EmptyString
  | String c r => String (if (c =? "'")%char then dquote else c) (doc r)
  end.

Fixpoint print (v : json) : string :=
  match v with
  | JNull => "null"
  | JBool true => "true"
  | JBool false => "false"
  | JNumber lit => lit
  | JString s => quote s
  | JArray es =>
      "[" ++ (fix elements (l : list json) : string :=
                match l with
                | [] => EmptyString
                | [e] => print e
                | e :: l' => print e ++ "," ++ elements l'
                end) es ++ "]"
  | JObject ms =>
      "{" ++ (fix members (l : list (string * json)) : string :=
                match l with
                | [] => EmptyString
                | [(k, e)] => quote k ++ ":" ++ print e
                | (k, e) :: l' => quote k ++ ":" ++ print e ++ "," ++ members l'
                end) ms ++ "}"
  end.

(** Case folding of ASCII letters. *)
Definition upper (c : ascii) : ascii :=
  let n := N_of_ascii c in
  if (97 <=? n)%N && (n <=? 122)%N then ascii_of_N (n - 32) else c.

Fixpoint fold (s : string) : string :=
  match s with
  | EmptyString => EmptyString
  | String c r => String (upper c) (fold r)
  end.

Definition syntax : Syntax := {|
  json_scan := scan;
  json_print := print;
  foldName := fold
|}.

(** An identifier in its text form of 26 characters. *)
Inductive ULID : Type :=
| Text (text : string).

Definition ULID_JSONValue : JSONValue ULID := {|
  zeroValue := Text "00000000000000000000000000";
  encodeValue := fun u => match u with Text s => Ok (JString s) end;
  decodeValue := fun v cur =>
    match v with
    | JString s =>
        if Nat.eqb (String.length s) 26
        then Stored (Text s)
        else Aborted (ForeignError "ulid: bad data size when unmarshaling")
    | _ => Saved (UnmarshalTypeError (valueKind v) "ulid.ULID" "" "")
    end
|}.

(** A time in its RFC 3339 text form. *)
Inductive Time : Type :=
| RFC3339 (text : string).

Definition Time_JSONValue : JSONValue Time := {|
  zeroValue := RFC3339 "0001-01-01T00:00:00Z";
  encodeValue := fun t => match t with RFC3339 s => Ok (JString s) end;
  decodeValue := fun v cur =>
    match v with
    | JString s => Stored (RFC3339 s)
    | JNull => Stored cur
    | _ => Aborted (ForeignError
                      "Time.UnmarshalJSON: input is not a JSON string")
    end
|}.

(** The process: its environment, the identifiers [NewULID] will hand out
    and the readings of the clock. *)
Record World : Type := {
  environ : list (string * string);
  entropy : list ULID;
  clock : list Time
}.

Fixpoint lookup (key : string) (env : list (string * string)) : string :=
  match env with
  | [] => ""
  | (k, v) :: env' => if k =? key then v else lookup key env'
  end.

Definition process : Process World ULID Time := {|
  os_Getenv := fun key w => lookup key (environ w);
  NewULID := fun w =>
    match entropy w with
    | [] => (zeroValue (JSONValue := ULID_JSONValue), w)
    | u :: us =>
        (u, {| environ := environ w; entropy := us; clock := clock w |})
    end;
  time_Now := fun w =>
    match clock w with
    | [] => (zeroValue (JSONValue := Time_JSONValue), w)
    | t :: ts =>
        (t, {| environ := environ w; entropy := entropy w; clock := ts |})
    end
|}.

(** An annotation and a process state for the examples. *)
Definition annotation (hash : HashType) (kind : AnnotationType)
  : Annotation.t ULID Time :=
  {| Annotation.Id := Text "01HZX3KQ9T5V7W8Y2B4C6D0EFG";
     Annotation.Key := "9e107d9d372bb6826bd81d3542a419d6";
     Annotation.Hash := hash;
     Annotation.Host := "node-1";
     Annotation.Tag := "";
     Annotation.Layer := Application;
     Annotation.Kind := kind;
     Annotation.Signature := "c2lnbmVk";
     Annotation.IsSatisfied := true;
     Annotation.Timestamp := RFC3339 "2024-05-01T10:00:00Z" |}.

Definition world : World :=
  {| environ := [("HOME", "/root"); ("TAG", "4f2a9c1")];
     entropy := [Text "01HZX3KQ9T5V7W8Y2B4C6D0EFG"];
     clock := [RFC3339 "2024-05-01T10:00:00Z"] |}.

End Ref.

(** * Properties *)

(** ** The validators *)

Lemma switch_case_In (t : string) (cases : list string) :
  switch_case t cases = true <-> In t cases.
Proof.
  induction cases as [|c cases IH]; simpl.
  - split; [discriminate | tauto].
  - destruct (String.eqb_spec t c) as [->|Hne].
    + split; auto.
    + rewrite IH. split; [auto|]. intros [Heq|Hin]; [congruence | exact Hin].
Qed.

Lemma switch_case_not_In (t : string) (cases : list string) :
  ~ In t cases -> switch_case t cases = false.
Proof.
  intros Hnot. destruct (switch_case t cases) eqn:E; [|reflexivity].
  apply switch_case_In in E. contradiction.
Qed.

(** A chain of comparisons with the constants of a list is false on a string
    that is not in the list. *)
Ltac reject_non_member H :=
  repeat match goal with
         | |- context [String.eqb ?s ?c] =>
             destruct (String.eqb_spec s c) as [->|_];
             [exfalso; apply H; simpl; tauto|]
         end;
  reflexivity.

Lemma NetType_Validate_false (s : string) :
  ~ In s NetType_members -> NetType_Validate s = false.
Proof. intros H. unfold NetType_Validate. reject_non_member H. Qed.

Lemma HashType_Validate_false (s : string) :
  ~ In s HashType_members -> HashType_Validate s = false.
Proof. intros H. unfold HashType_Validate. reject_non_member H. Qed.

Lemma KeyAlgorithm_Validate_false (s : string) :
  ~ In s KeyAlgorithm_members -> KeyAlgorithm_Validate s = false.
Proof. intros H. unfold KeyAlgorithm_Validate. reject_non_member H. Qed.

Lemma StreamType_Validate_false (s : string) :
  ~ In s StreamType_members -> StreamType_Validate s = false.
Proof. intros H. unfold StreamType_Validate. reject_non_member H. Qed.

Lemma DerivedComponent_Validate_false (s : string) :
  ~ In s DerivedComponent_members -> DerivedComponent_Validate s = false.
Proof. intros H. unfold DerivedComponent_Validate. reject_non_member H. Qed.

Lemma AnnotationType_Validate_false (s : string) :
  ~ In s AnnotationType_members -> AnnotationType_Validate s = false.
Proof.
  intros H. unfold AnnotationType_Validate.
  rewrite switch_case_not_In; [reflexivity|].
  intros Hin. apply H. unfold AnnotationType_members.
  simpl in Hin |- *. tauto.
Qed.

Lemma LayerType_Validate_false (s : string) :
  ~ In s LayerType_members -> LayerType_Validate s = false.
Proof.
  intros H. unfold LayerType_Validate.
  rewrite switch_case_not_In; [reflexivity | exact H].
Qed.

Lemma layer_Validate_false (s : string) :
  ~ In s layer_members -> layer.Validate s = false.
Proof.
  intros H. unfold layer.Validate.
  rewrite switch_case_not_In; [reflexivity | exact H].
Qed.

(** The two declarations of the layer enumeration agree. *)
Lemma layer_Validate_eq (l : LayerType) :
  layer.Validate l = LayerType_Validate l.
Proof. reflexivity. Qed.

(** Every validator but the one of [AnnotationType] accepts each declared
    member of its enumeration. *)
Lemma Validate_members :
  forallb NetType_Validate NetType_members = true
  /\ forallb HashType_Validate HashType_members = true
  /\ forallb KeyAlgorithm_Validate KeyAlgorithm_members = true
  /\ forallb StreamType_Validate StreamType_members = true
  /\ forallb DerivedComponent_Validate DerivedComponent_members = true
  /\ forallb LayerType_Validate LayerType_members = true
  /\ forallb layer.Validate layer_members = true.
Proof. repeat split; reflexivity. Qed.

(** [AnnotationType.Validate] accepts exactly the eight constants its
    [case] lists. *)
Lemma AnnotationType_Validate_true (t : AnnotationType) :
  AnnotationType_Validate t = true <->
  In t [AnnotationPKI; AnnotationPKIHttp; AnnotationSource; AnnotationTLS;
        AnnotationTPM; AnnotationSourceCode; AnnotationChecksum;
        AnnotationVulnerability].
Proof.
  unfold AnnotationType_Validate.
  destruct (switch_case t _) eqn:E.
  - apply switch_case_In in E. simpl in E |- *. split; [tauto | reflexivity].
  - split; [discriminate|]. intros Hin.
    assert (switch_case t
              [AnnotationPKI; AnnotationTLS; AnnotationTPM; AnnotationSource;
               AnnotationPKIHttp; AnnotationSourceCode; AnnotationChecksum;
               AnnotationVulnerability] = true) as E'
      by (apply switch_case_In; simpl in Hin |- *; tauto).
    congruence.
Qed.

(** C1. [AnnotationType.Validate] is claimed to return true on each of the
    nine declared kinds. It does on eight of them; on the declared constant
    [AnnotationSBOM], which the [case] of the [switch] does not list, it
    returns false. *)
Theorem AnnotationType_Validate_sbom :
  In AnnotationSBOM AnnotationType_members
  /\ AnnotationType_Validate AnnotationSBOM = false
  /\ forallb AnnotationType_Validate
       [AnnotationPKI; AnnotationPKIHttp; AnnotationSource; AnnotationTLS;
        AnnotationTPM; AnnotationSourceCode; AnnotationChecksum;
        AnnotationVulnerability] = true.
Proof.
  split; [|split].
  - unfold AnnotationType_members. simpl. tauto.
  - reflexivity.
  - reflexivity.
Qed.

(** C5. The stream type [pravega], declared but not implemented, is accepted
    by [StreamType.Validate], as are [mock], [console], [mqtt] and
    [hedera]. *)
Theorem StreamType_Validate_pravega :
  StreamType_Validate "pravega" = true
  /\ StreamType_Validate "mock" = true
  /\ StreamType_Validate "console" = true
  /\ StreamType_Validate "mqtt" = true
  /\ StreamType_Validate "hedera" = true.
Proof. repeat split; reflexivity. Qed.

(** C7. On a string that is not a declared member of the enumeration, the
    validator of each enumeration ([HashType], [KeyAlgorithm], [StreamType],
    [AnnotationType], [LayerType] in both of its declarations,
    [DerivedComponent], [NetType]) returns false; in particular each of them
    returns false on the string [invalid]. *)
Theorem Validate_non_member :
  (forall s, ~ In s HashType_members -> HashType_Validate s = false)
  /\ (forall s, ~ In s KeyAlgorithm_members -> KeyAlgorithm_Validate s = false)
  /\ (forall s, ~ In s StreamType_members -> StreamType_Validate s = false)
  /\ (forall s, ~ In s AnnotationType_members ->
                AnnotationType_Validate s = false)
  /\ (forall s, ~ In s LayerType_members -> LayerType_Validate s = false)
  /\ (forall s, ~ In s layer_members -> layer.Validate s = false)
  /\ (forall s, ~ In s DerivedComponent_members ->
                DerivedComponent_Validate s = false)
  /\ (forall s, ~ In s NetType_members -> NetType_Validate s = false)
  /\ HashType_Validate "invalid" = false
  /\ KeyAlgorithm_Validate "invalid" = false
  /\ StreamType_Validate "invalid" = false
  /\ AnnotationType_Validate "invalid" = false
  /\ LayerType_Validate "invalid" = false
  /\ layer.Validate "invalid" = false
  /\ DerivedComponent_Validate "invalid" = false
  /\ NetType_Validate "invalid" = false.
Proof.
  repeat split; try reflexivity.
  - exact HashType_Validate_false.
  - exact KeyAlgorithm_Validate_false.
  - exact StreamType_Validate_false.
  - exact AnnotationType_Validate_false.
  - exact LayerType_Validate_false.
  - exact layer_Validate_false.
  - exact DerivedComponent_Validate_false.
  - exact NetType_Validate_false.
Qed.

Ltac not_in_list :=
  let H := fresh "H" in
  simpl; intros H;
  repeat match type of H with
         | _ \/ _ => destruct H as [H|H]
         end;
  try discriminate H; try contradiction.

Lemma Validate_non_member_witness :
  HashType_Validate "sha1" = false
  /\ KeyAlgorithm_Validate "rsa" = false
  /\ StreamType_Validate "kafka" = false
  /\ AnnotationType_Validate "invalid" = false
  /\ LayerType_Validate "App" = false
  /\ layer.Validate "" = false
  /\ DerivedComponent_Validate "method" = false
  /\ NetType_Validate "devnet" = false.
Proof.
  destruct Validate_non_member
    as (H1 & H2 & H3 & H4 & H5 & H6 & H7 & H8 & _).
  refine (conj (H1 _ _) (conj (H2 _ _) (conj (H3 _ _) (conj (H4 _ _)
           (conj (H5 _ _) (conj (H6 _ _) (conj (H7 _ _) (H8 _ _))))))));
    not_in_list.
Defined.

(** ** Tag lookup and the constructor *)

Section TagProperties.

Context {W ULID Time : Type} {P : Process W ULID Time}.

Lemma defaultGetTagValue_eq (L : LayerType) (w : W) :
  defaultGetTagValue L w =
  if L =? Application then (os_Getenv "TAG" w, w) else ("", w).
Proof.
  unfold defaultGetTagValue, switch_case, TagEnvKey.
  destruct (L =? Application); reflexivity.
Qed.

(** Without an installed resolver the lookup is the default one. *)
Lemma GetTagValue_initGlobals (L : LayerType) (w : W) :
  GetTagValue initGlobals L w = defaultGetTagValue L w.
Proof.
  unfold GetTagValue, initGlobals, bind, ret. simpl.
  destruct (defaultGetTagValue L w) as [v w'] eqn:E.
  destruct (v =? "") eqn:Ev; simpl; [|reflexivity].
  apply String.eqb_eq in Ev. subst v.
  rewrite defaultGetTagValue_eq in E |- *.
  destruct (L =? Application); [|congruence].
  injection E as E1 E2. subst w'. rewrite E1. reflexivity.
Qed.

(** C3. With the resolver [getTag] installed, [GetTagValue L] returns what
    [getTag L] returned when that is not empty; otherwise it returns the
    default: for the application layer the value of the environment variable
    [TAG], read in the state the resolver left, and the empty string for
    every other layer. *)
Theorem GetTagValue_resolver (g : Globals) (getTag : TagValueGetter)
    (L : LayerType) (w : W) :
  GetTagValue (SetCurrentTagValueGetter getTag g) L w =
  (let (v, w') := getTag L w in
   if negb (v =? "") then (v, w')
   else if L =? Application then (os_Getenv "TAG" w', w')
   else ("", w')).
Proof.
  unfold GetTagValue, SetCurrentTagValueGetter, bind, ret. simpl.
  destruct (getTag L w) as [v w'].
  destruct (negb (v =? "")); [reflexivity|].
  apply defaultGetTagValue_eq.
Qed.

(** C6. The annotation [NewAnnotation] returns has an empty [Signature],
    has [Key], [Hash], [Host], [Layer], [Kind] and [IsSatisfied] equal to the
    arguments, and has for [Tag] the result of [GetTagValue layer], called
    after [NewULID] and before [time.Now]. *)
Theorem NewAnnotation_fields (g : Globals) (key : string) (hash : HashType)
    (host : string) (layer : LayerType) (kind : AnnotationType)
    (satisfied : bool) (w : W) :
  let a := fst (NewAnnotation g key hash host layer kind satisfied w) in
  let w1 := snd (NewULID w) in
  let w2 := snd (GetTagValue g layer w1) in
  Annotation.Signature a = ""
  /\ Annotation.Key a = key
  /\ Annotation.Hash a = hash
  /\ Annotation.Host a = host
  /\ Annotation.Layer a = layer
  /\ Annotation.Kind a = kind
  /\ Annotation.IsSatisfied a = satisfied
  /\ Annotation.Tag a = fst (GetTagValue g layer w1)
  /\ Annotation.Id a = fst (NewULID w)
  /\ Annotation.Timestamp a = fst (time_Now w2)
  /\ snd (NewAnnotation g key hash host layer kind satisfied w)
     = snd (time_Now w2).
Proof.
  unfold NewAnnotation, bind, ret. simpl.
  destruct (NewULID w) as [id w1]. simpl.
  destruct (GetTagValue g layer w1) as [tag w2]. simpl.
  destruct (time_Now w2) as [now w3]. simpl.
  repeat split.
Qed.

End TagProperties.

(** ** The decoder *)

Lemma append_empty (s : string) : s ++ "" = s.
Proof. induction s as [|c s IH]; simpl; [reflexivity | now rewrite IH]. Qed.

Section DecoderProperties.

Context {ULID Time : Type}.
Context {JU : JSONValue ULID} {JT : JSONValue Time} {S : Syntax}.

Implicit Types (x : Alias.t ULID Time) (a : Annotation.t ULID Time).

(** Once a mismatch is recorded, decoding ends with an error. *)
Lemma decodeObject_saved members x e :
  snd (decodeObject members x (Some e)) <> None.
Proof.
  revert x. induction members as [|[key v] rest IH]; intros x; simpl.
  - discriminate.
  - destruct (findField key) as [f|]; [|apply IH].
    destruct (storeField f v x); simpl; [apply IH | apply IH | discriminate].
Qed.

(** What storing a member does to a field of kind string: the member's
    string when the member names the field, nothing when it names another
    field. *)
Lemma storeField_stringOf f g v x x1 s0 :
  storeField f v x = Stored x1 ->
  stringOf g x = Some s0 ->
  if field_eqb f g
  then match v with
       | JString s => stringOf g x1 = Some s
       | _ => stringOf g x1 = Some s0
       end
  else stringOf g x1 = Some s0.
Proof.
  intros Hst Hg.
  destruct f; simpl in Hst; unfold storeInto in Hst;
    match type of Hst with
    | match ?d with _ => _ end = _ => destruct d eqn:Hd; try discriminate Hst
    end;
    injection Hst as <-;
    destruct g; simpl in Hg |- *; try discriminate Hg; try exact Hg;
    destruct v; simpl in Hd; try discriminate Hd;
    injection Hd as <-; injection Hg as <-; reflexivity.
Qed.

(** After a decoding without error, a field of kind string holds the string
    of the last member that names it, and is untouched when no member names
    it. *)
Lemma decodeObject_stringOf g members x saved x' s0 :
  decodeObject members x saved = (x', None) ->
  stringOf g x = Some s0 ->
  match fieldValue g members with
  | Some (JString s) => stringOf g x' = Some s
  | Some _ => True
  | None => stringOf g x' = Some s0
  end.
Proof.
  revert x saved s0.
  induction members as [|[key v] rest IH]; intros x saved s0 Hdec Hg; simpl.
  - simpl in Hdec. injection Hdec as <- _. exact Hg.
  - simpl in Hdec. unfold names.
    destruct (findField key) as [f|].
    + destruct (storeField f v x) as [x1|e|e] eqn:Hst.
      * pose proof (storeField_stringOf f g v x x1 s0 Hst Hg) as Hx1.
        destruct (field_eqb f g).
        -- destruct v;
             match type of Hx1 with
             | stringOf g x1 = Some ?s1 =>
                 specialize (IH x1 saved s1 Hdec Hx1)
             end;
             destruct (fieldValue g rest) as [[]|]; auto.
        -- specialize (IH x1 saved s0 Hdec Hx1).
           destruct (fieldValue g rest) as [[]|]; auto.
      * exfalso.
        destruct saved as [e0|]; simpl in Hdec;
          [pose proof (decodeObject_saved rest x e0) as Hs
          |pose proof (decodeObject_saved rest x e) as Hs];
          rewrite Hdec in Hs; apply Hs; reflexivity.
      * discriminate Hdec.
    + specialize (IH x saved s0 Hdec Hg).
      destruct (fieldValue g rest) as [[]|]; auto.
Qed.

Lemma json_Unmarshal_object data members x :
  json_scan data = Some (JObject members) ->
  json_Unmarshal data x = decodeObject members x None.
Proof. intros H. unfold json_Unmarshal. now rewrite H. Qed.

(** The three ways out of [UnmarshalJSON]. *)
Lemma UnmarshalJSON_cases data a :
  UnmarshalJSON data a =
  match json_Unmarshal data Alias_zero with
  | (_, Some e) => (a, Some e)
  | (x, None) =>
      if negb (HashType_Validate (Alias.Hash x))
      then (a, Some (invalidHash (Alias.Hash x)))
      else if negb (AnnotationType_Validate (Alias.Kind x))
      then (a, Some (invalidKind (Alias.Kind x)))
      else (assignAll x, None)
  end.
Proof.
  unfold UnmarshalJSON.
  destruct (json_Unmarshal data Alias_zero) as [x [e|]]; [reflexivity|].
  unfold fmt_Errorf, invalidHash, invalidKind. simpl.
  rewrite !append_empty. reflexivity.
Qed.

(** C8. [UnmarshalJSON] leaves its receiver as it was whenever it returns an
    error, be it the error of [json.Unmarshal] or a rejected [hash] or [kind];
    when it returns no error, the input was decoded without error, both
    validators accepted, and the receiver holds the ten decoded fields. *)
Theorem UnmarshalJSON_atomic data a :
  match UnmarshalJSON data a with
  | (a', Some _) => a' = a
  | (a', None) =>
      exists x,
        json_Unmarshal data Alias_zero = (x, None)
        /\ HashType_Validate (Alias.Hash x) = true
        /\ AnnotationType_Validate (Alias.Kind x) = true
        /\ a' = assignAll x
  end.
Proof.
  rewrite UnmarshalJSON_cases.
  destruct (json_Unmarshal data Alias_zero) as [x [e|]]; [reflexivity|].
  destruct (HashType_Validate (Alias.Hash x)) eqn:Hh; simpl; [|reflexivity].
  destruct (AnnotationType_Validate (Alias.Kind x)) eqn:Hk; simpl;
    [|reflexivity].
  exists x. auto.
Qed.

(** C4. When the [hash] member of a document holds a string that
    [HashType.Validate] rejects, or its [kind] member a string that
    [AnnotationType.Validate] rejects, [UnmarshalJSON] returns an error and
    leaves the receiver as it was. The error is the one of [json.Unmarshal],
    or it names the rejected value of the field. *)
Theorem UnmarshalJSON_rejects_invalid data doc a s :
  json_scan data = Some doc ->
  (memberValue doc Alias.FHash = Some (JString s)
   /\ HashType_Validate s = false)
  \/ (memberValue doc Alias.FKind = Some (JString s)
      /\ AnnotationType_Validate s = false) ->
  exists e,
    UnmarshalJSON data a = (a, Some e)
    /\ forall x r,
         json_Unmarshal data Alias_zero = (x, r) ->
         match r with
         | Some e' => e = e'
         | None => e = invalidHash (Alias.Hash x) \/ e = invalidKind s
         end.
Proof.
  intros Hscan Hbad.
  assert (exists members, doc = JObject members) as [members ->].
  { destruct doc; simpl in Hbad; try (destruct Hbad as [[H _]|[H _]];
      discriminate H). eauto. }
  simpl in Hbad.
  rewrite UnmarshalJSON_cases.
  destruct (json_Unmarshal data Alias_zero) as [x [e|]] eqn:Hdec.
  { exists e. split; [reflexivity|]. intros x' r [= <- <-]. reflexivity. }
  rewrite (json_Unmarshal_object _ _ _ Hscan) in Hdec.
  destruct Hbad as [[Hv Hs]|[Hv Hs]].
  - pose proof (decodeObject_stringOf Alias.FHash _ _ _ _ _ Hdec eq_refl)
      as Hx.
    rewrite Hv in Hx. simpl in Hx. injection Hx as Hx.
    rewrite Hx, Hs. simpl. exists (invalidHash s).
    split; [reflexivity|]. intros x' r [= <- <-]. left. now rewrite Hx.
  - pose proof (decodeObject_stringOf Alias.FKind _ _ _ _ _ Hdec eq_refl)
      as Hx.
    rewrite Hv in Hx. simpl in Hx. injection Hx as Hx.
    destruct (HashType_Validate (Alias.Hash x)); simpl.
    + rewrite Hx, Hs. simpl. exists (invalidKind s).
      split; [reflexivity|]. intros x' r [= <- <-]. now right.
    + exists (invalidHash (Alias.Hash x)).
      split; [reflexivity|]. intros x' r [= <- <-]. now left.
Qed.

(** C9, amended. [UnmarshalJSON] does not validate the layer: when
    [json.Unmarshal] decodes a document without error and its [hash] and
    [kind] members hold accepted strings, [UnmarshalJSON] returns no error
    whatever string [l] its [layer] member holds, and the receiver's [Layer]
    is [l]. *)
Theorem UnmarshalJSON_layer_unchecked data doc a x h k l :
  json_scan data = Some doc ->
  json_Unmarshal data Alias_zero = (x, None) ->
  memberValue doc Alias.FHash = Some (JString h) ->
  HashType_Validate h = true ->
  memberValue doc Alias.FKind = Some (JString k) ->
  AnnotationType_Validate k = true ->
  memberValue doc Alias.FLayer = Some (JString l) ->
  exists a',
    UnmarshalJSON data a = (a', None)
    /\ Annotation.Layer a' = l
    /\ Annotation.Hash a' = h
    /\ Annotation.Kind a' = k.
Proof.
  intros Hscan Hok Hh Hvh Hk Hvk Hl.
  assert (exists members, doc = JObject members) as [members ->].
  { destruct doc; try discriminate Hh. eauto. }
  simpl in Hh, Hk, Hl.
  rewrite UnmarshalJSON_cases, Hok.
  rewrite (json_Unmarshal_object _ _ _ Hscan) in Hok.
  rename Hok into Hdec.
  pose proof (decodeObject_stringOf Alias.FHash _ _ _ _ _ Hdec eq_refl) as Xh.
  pose proof (decodeObject_stringOf Alias.FKind _ _ _ _ _ Hdec eq_refl) as Xk.
  pose proof (decodeObject_stringOf Alias.FLayer _ _ _ _ _ Hdec eq_refl) as Xl.
  rewrite Hh in Xh. rewrite Hk in Xk. rewrite Hl in Xl.
  simpl in Xh, Xk, Xl.
  injection Xh as Xh. injection Xk as Xk. injection Xl as Xl.
  rewrite Xh, Xk, Hvh, Hvk. simpl.
  exists (assignAll x). simpl. rewrite <- Xh, <- Xk. auto.
Qed.

(** C10. A document with no [hash] member or no [kind] member, such as the
    empty object, is rejected by [UnmarshalJSON]: the field keeps the empty
    string of [Alias{}], which the validator rejects. *)
Theorem UnmarshalJSON_missing_field data doc a :
  json_scan data = Some doc ->
  memberValue doc Alias.FHash = None \/ memberValue doc Alias.FKind = None ->
  (exists e, UnmarshalJSON data a = (a, Some e))
  /\ HashType_Validate "" = false
  /\ AnnotationType_Validate "" = false
  /\ forall x,
       json_Unmarshal data Alias_zero = (x, None) ->
       (memberValue doc Alias.FHash = None -> Alias.Hash x = "")
       /\ (memberValue doc Alias.FKind = None -> Alias.Kind x = "").
Proof.
  intros Hscan Hmiss.
  assert (forall x,
             json_Unmarshal data Alias_zero = (x, None) ->
             (memberValue doc Alias.FHash = None -> Alias.Hash x = "")
             /\ (memberValue doc Alias.FKind = None -> Alias.Kind x = ""))
    as Hzero.
  { intros x Hdec. unfold json_Unmarshal in Hdec. rewrite Hscan in Hdec.
    destruct doc as [| | | | |members]; try discriminate Hdec.
    - injection Hdec as <-. auto.
    - simpl.
      pose proof (decodeObject_stringOf Alias.FHash _ _ _ _ _ Hdec eq_refl)
        as Xh.
      pose proof (decodeObject_stringOf Alias.FKind _ _ _ _ _ Hdec eq_refl)
        as Xk.
      split; intros Hnone.
      + rewrite Hnone in Xh. now injection Xh.
      + rewrite Hnone in Xk. now injection Xk. }
  split; [|split; [reflexivity|split; [reflexivity|exact Hzero]]].
  rewrite UnmarshalJSON_cases.
  destruct (json_Unmarshal data Alias_zero) as [x [e|]] eqn:Hdec;
    [now exists e|].
  destruct (Hzero x eq_refl) as [Zh Zk].
  destruct Hmiss as [Hm|Hm].
  - rewrite (Zh Hm). simpl. now exists (invalidHash "").
  - destruct (HashType_Validate (Alias.Hash x)); simpl.
    + rewrite (Zk Hm). simpl. now exists (invalidKind "").
    + now exists (invalidHash (Alias.Hash x)).
Qed.

End DecoderProperties.

(** ** The round trip through JSON *)

Section RoundTrip.

Context {ULID Time : Type}.
Context {JU : JSONValue ULID} {JT : JSONValue Time} {S : Syntax}.

Implicit Types (x : Alias.t ULID Time) (a : Annotation.t ULID Time).

(** Decoding a string member left out by [omitempty] or written by it sets
    the field it names, when the field still holds the empty string. *)
Ltac omitted_or_stored x :=
  let K := fresh "K" in
  let Hzero := fresh "Hzero" in
  intros K Hzero; unfold omitempty;
  match goal with
  | |- context [String.eqb ?s ""] =>
      destruct (String.eqb_spec s "") as [->|_]
  end; simpl;
  [destruct x; simpl in Hzero; subst; reflexivity | rewrite K; reflexivity].

Lemma decode_key s x rest :
  findField "key" = Some Alias.FKey -> Alias.Key x = "" ->
  decodeObject (omitempty "key" s ++ rest) x None
  = decodeObject rest (Alias.set_Key s x) None.
Proof. omitted_or_stored x. Qed.

Lemma decode_hash s x rest :
  findField "hash" = Some Alias.FHash -> Alias.Hash x = "" ->
  decodeObject (omitempty "hash" s ++ rest) x None
  = decodeObject rest (Alias.set_Hash s x) None.
Proof. omitted_or_stored x. Qed.

Lemma decode_host s x rest :
  findField "host" = Some Alias.FHost -> Alias.Host x = "" ->
  decodeObject (omitempty "host" s ++ rest) x None
  = decodeObject rest (Alias.set_Host s x) None.
Proof. omitted_or_stored x. Qed.

Lemma decode_tag s x rest :
  findField "tag" = Some Alias.FTag -> Alias.Tag x = "" ->
  decodeObject (omitempty "tag" s ++ rest) x None
  = decodeObject rest (Alias.set_Tag s x) None.
Proof. omitted_or_stored x. Qed.

Lemma decode_layer s x rest :
  findField "layer" = Some Alias.FLayer -> Alias.Layer x = "" ->
  decodeObject (omitempty "layer" s ++ rest) x None
  = decodeObject rest (Alias.set_Layer s x) None.
Proof. omitted_or_stored x. Qed.

Lemma decode_kind s x rest :
  findField "kind" = Some Alias.FKind -> Alias.Kind x = "" ->
  decodeObject (omitempty "kind" s ++ rest) x None
  = decodeObject rest (Alias.set_Kind s x) None.
Proof. omitted_or_stored x. Qed.

Lemma decode_signature s x rest :
  findField "signature" = Some Alias.FSignature -> Alias.Signature x = "" ->
  decodeObject (omitempty "signature" s ++ rest) x None
  = decodeObject rest (Alias.set_Signature s x) None.
Proof. omitted_or_stored x. Qed.

(** X11. The round trip holds for every annotation whose [Hash] and [Kind] the
    validators accept: when the keys of the JSON shape name the fields of
    [Alias], the scanner reads back what the printer wrote, and [Id] and
    [Timestamp] are decoded from their own encoding, unmarshalling the
    marshalled annotation gives the annotation. *)
Lemma Annotation_roundtrip (a a0 : Annotation.t ULID Time) (doc : json) :
  findField "id" = Some Alias.FId ->
  findField "key" = Some Alias.FKey ->
  findField "hash" = Some Alias.FHash ->
  findField "host" = Some Alias.FHost ->
  findField "tag" = Some Alias.FTag ->
  findField "layer" = Some Alias.FLayer ->
  findField "kind" = Some Alias.FKind ->
  findField "signature" = Some Alias.FSignature ->
  findField "isSatisfied" = Some Alias.FIsSatisfied ->
  findField "timestamp" = Some Alias.FTimestamp ->
  encodeAnnotation a = Ok doc ->
  json_scan (json_print doc) = Some doc ->
  (forall j, encodeValue (Annotation.Id a) = Ok j ->
             decodeValue j zeroValue = Stored (Annotation.Id a)) ->
  (forall j, encodeValue (Annotation.Timestamp a) = Ok j ->
             decodeValue j zeroValue = Stored (Annotation.Timestamp a)) ->
  HashType_Validate (Annotation.Hash a) = true ->
  AnnotationType_Validate (Annotation.Kind a) = true ->
  json_Marshal a = Ok (json_print doc)
  /\ UnmarshalJSON (json_print doc) a0 = (a, None).
Proof.
  intros K1 K2 K3 K4 K5 K6 K7 K8 K9 K10 Henc Hscan HU HT Hh Hk.
  split; [unfold json_Marshal; now rewrite Henc|].
  rewrite UnmarshalJSON_cases.
  destruct a as [id key hash host tag layer kind sig sat ts].
  unfold encodeAnnotation in Henc.
  cbn [Annotation.Id Annotation.Key Annotation.Hash Annotation.Host
       Annotation.Tag Annotation.Layer Annotation.Kind Annotation.Signature
       Annotation.IsSatisfied Annotation.Timestamp] in *.
  destruct (encodeValue id) as [jid|] eqn:Eid; [|discriminate].
  destruct (encodeValue ts) as [jts|] eqn:Ets; [|discriminate].
  injection Henc as <-.
  rewrite (json_Unmarshal_object _ _ _ Hscan). clear Hscan.
  specialize (HU _ eq_refl). specialize (HT _ eq_refl).
  cbn [app decodeObject]. rewrite K1.
  cbn [storeField Alias_zero Alias.Id]. rewrite HU. cbn [storeInto].
  rewrite decode_key, decode_hash, decode_host, decode_tag, decode_layer,
    decode_kind, decode_signature by (assumption || reflexivity).
  cbn [app decodeObject]. rewrite K9. simpl. rewrite K10. simpl.
  rewrite HT. simpl. rewrite Hh, Hk. reflexivity.
Qed.
End RoundTrip.

(** ** Further properties of the validators *)

(** A validator written as a chain of comparisons accepts a string exactly
    when the string is in the list of the compared constants. *)
Ltac accepts_iff_member Hfalse :=
  let s := fresh "s" in
  let H := fresh "H" in
  intros s; split;
  [ intros H;
    match goal with
    | |- In s ?l =>
        destruct (in_dec string_dec s l) as [Hin|Hout];
        [exact Hin | rewrite (Hfalse s Hout) in H; discriminate H]
    end
  | simpl; intros H;
    repeat match type of H with
           | _ \/ _ => destruct H as [H|H]
           end;
    try contradiction; subst s; reflexivity ].

(** X1. Each of the validators of [NetType], [HashType], [KeyAlgorithm],
    [StreamType], [DerivedComponent] and [LayerType] (in both declarations)
    returns true exactly on the constants its [const] block declares. *)
Theorem Validate_iff_member :
  (forall s, NetType_Validate s = true <-> In s NetType_members)
  /\ (forall s, HashType_Validate s = true <-> In s HashType_members)
  /\ (forall s, KeyAlgorithm_Validate s = true <-> In s KeyAlgorithm_members)
  /\ (forall s, StreamType_Validate s = true <-> In s StreamType_members)
  /\ (forall s, DerivedComponent_Validate s = true <->
                In s DerivedComponent_members)
  /\ (forall s, LayerType_Validate s = true <-> In s LayerType_members)
  /\ (forall s, layer.Validate s = true <-> In s layer_members).
Proof.
  split; [|split; [|split; [|split; [|split; [|split]]]]].
  - accepts_iff_member NetType_Validate_false.
  - accepts_iff_member HashType_Validate_false.
  - accepts_iff_member KeyAlgorithm_Validate_false.
  - accepts_iff_member StreamType_Validate_false.
  - accepts_iff_member DerivedComponent_Validate_false.
  - accepts_iff_member LayerType_Validate_false.
  - accepts_iff_member layer_Validate_false.
Qed.

(** X2. [AnnotationType.Validate] returns true exactly on the declared
    constants other than [AnnotationSBOM]. *)
Theorem AnnotationType_Validate_iff (t : AnnotationType) :
  AnnotationType_Validate t = true <->
  In t AnnotationType_members /\ t <> AnnotationSBOM.
Proof.
  rewrite AnnotationType_Validate_true. unfold AnnotationType_members.
  simpl. split.
  - intros H.
    repeat match type of H with
           | _ \/ _ => destruct H as [H|H]
           end;
      try contradiction; subst t; (split; [tauto | discriminate]).
  - intros [H Hne].
    repeat match type of H with
           | _ \/ _ => destruct H as [H|H]
           end;
      try contradiction; try (symmetry in H; contradiction); tauto.
Qed.

(** ** Further properties of the tag lookup and of the constructor *)

Section TagLookup.

Context {W ULID Time : Type} {P : Process W ULID Time}.

(** X3. With the resolver the package starts with, and again after the
    default resolver is installed back over any other, [GetTagValue] is the
    default lookup: the second reading of the environment that the fallback
    makes returns what the first one did. *)
Theorem GetTagValue_default (g : Globals) (L : LayerType) (w : W) :
  GetTagValue initGlobals L w = defaultGetTagValue L w
  /\ GetTagValue (SetCurrentTagValueGetter defaultGetTagValue g) L w
     = defaultGetTagValue L w.
Proof.
  split; apply GetTagValue_initGlobals.
Qed.

(** X4. With the default resolver, the annotation [NewAnnotation] returns
    for the application layer carries the value the environment variable
    [TAG] has after [NewULID] ran, and the annotation for any other layer an
    empty tag. *)
Theorem NewAnnotation_default_tag (key : string) (hash : HashType)
    (host : string) (layer : LayerType) (kind : AnnotationType)
    (satisfied : bool) (w : W) :
  Annotation.Tag
    (fst (NewAnnotation initGlobals key hash host layer kind satisfied w))
  = if layer =? Application
    then os_Getenv "TAG" (snd (NewULID w))
    else "".
Proof.
  unfold NewAnnotation, bind, ret.
  destruct (NewULID w) as [id w1]. simpl snd.
  rewrite GetTagValue_initGlobals, defaultGetTagValue_eq.
  destruct (layer =? Application);
    destruct (time_Now w1) as [now w2]; reflexivity.
Qed.

(** X5. After a resolver is installed, an annotation created for a layer on
    which the resolver answers a string that is not empty carries that
    string as its tag, whatever the environment holds. *)
Theorem NewAnnotation_resolver_tag (g : Globals) (getTag : TagValueGetter)
    (key : string) (hash : HashType) (host : string) (layer : LayerType)
    (kind : AnnotationType) (satisfied : bool) (w : W) :
  fst (getTag layer (snd (NewULID w))) <> "" ->
  Annotation.Tag
    (fst (NewAnnotation (SetCurrentTagValueGetter getTag g) key hash host
            layer kind satisfied w))
  = fst (getTag layer (snd (NewULID w))).
Proof.
  intros Hne.
  unfold NewAnnotation, GetTagValue, SetCurrentTagValueGetter, bind, ret.
  simpl CurrentTagValueGetter.
  destruct (NewULID w) as [id w1]. simpl snd in *.
  destruct (getTag layer w1) as [v w2]. simpl fst in *.
  destruct (String.eqb_spec v "") as [->|_]; [contradiction|].
  simpl. destruct (time_Now w2) as [now w3]. reflexivity.
Qed.

End TagLookup.

(** ** Further properties of the decoder *)

Section DecoderOutcome.

Context {ULID Time : Type}.
Context {JU : JSONValue ULID} {JT : JSONValue Time} {S : Syntax}.

Implicit Types (x : Alias.t ULID Time) (a b : Annotation.t ULID Time).

Lemma Annotation_stringOf_assignAll f x :
  Annotation_stringOf f (assignAll x) = stringOf f x.
Proof. destruct f; reflexivity. Qed.

Lemma HashType_Validate_In (s : string) :
  HashType_Validate s = true -> In s HashType_members.
Proof.
  intros H. destruct (in_dec string_dec s HashType_members) as [Hin|Hout];
    [exact Hin|].
  rewrite (HashType_Validate_false s Hout) in H. discriminate H.
Qed.

(** X6. [UnmarshalJSON] returns no error exactly when [json.Unmarshal]
    decodes the input without error into a value whose [Hash] and [Kind] the
    two validators accept. *)
Theorem UnmarshalJSON_succeeds_iff data a :
  snd (UnmarshalJSON data a) = None <->
  exists x,
    json_Unmarshal data Alias_zero = (x, None)
    /\ HashType_Validate (Alias.Hash x) = true
    /\ AnnotationType_Validate (Alias.Kind x) = true.
Proof.
  rewrite UnmarshalJSON_cases.
  destruct (json_Unmarshal data Alias_zero) as [x [e|]].
  - simpl. split; [discriminate|]. intros (x' & Hx & _). discriminate Hx.
  - destruct (HashType_Validate (Alias.Hash x)) eqn:Hh; simpl.
    + destruct (AnnotationType_Validate (Alias.Kind x)) eqn:Hk; simpl.
      * split; [|reflexivity]. intros _. exists x. auto.
      * split; [discriminate|]. intros (x' & [= <-] & _ & Hk').
        congruence.
    + split; [discriminate|]. intros (x' & [= <-] & Hh' & _). congruence.
Qed.

(** X7. The outcome of [UnmarshalJSON] does not depend on what the receiver
    held: on two receivers it returns the same error, or no error and the
    same annotation, every field being overwritten. So unmarshalling the same
    input a second time changes nothing. *)
Theorem UnmarshalJSON_receiver data a b :
  match UnmarshalJSON data a, UnmarshalJSON data b with
  | (a', None), (b', None) => a' = b'
  | (a', Some e), (b', Some e') => e = e' /\ a' = a /\ b' = b
  | _, _ => False
  end
  /\ UnmarshalJSON data (fst (UnmarshalJSON data a)) = UnmarshalJSON data a.
Proof.
  rewrite !UnmarshalJSON_cases.
  destruct (json_Unmarshal data Alias_zero) as [x [e|]]; simpl.
  - auto.
  - destruct (HashType_Validate (Alias.Hash x)); simpl; [|auto].
    destruct (AnnotationType_Validate (Alias.Kind x)); simpl; auto.
Qed.

(** X8. An annotation that [UnmarshalJSON] accepted has a declared hash type
    for [Hash] and one of the eight kinds of the validator for [Kind]: the
    kind is never [sbom], and neither field is empty. *)
Theorem UnmarshalJSON_result_validated data a a' :
  UnmarshalJSON data a = (a', None) ->
  In (Annotation.Hash a') HashType_members
  /\ In (Annotation.Kind a') AnnotationType_members
  /\ Annotation.Kind a' <> AnnotationSBOM
  /\ Annotation.Hash a' <> ""
  /\ Annotation.Kind a' <> "".
Proof.
  intros H. rewrite UnmarshalJSON_cases in H.
  destruct (json_Unmarshal data Alias_zero) as [x [e|]]; [discriminate H|].
  destruct (HashType_Validate (Alias.Hash x)) eqn:Hh; simpl in H;
    [|discriminate H].
  destruct (AnnotationType_Validate (Alias.Kind x)) eqn:Hk; simpl in H;
    [|discriminate H].
  injection H as <-. simpl.
  apply HashType_Validate_In in Hh.
  apply AnnotationType_Validate_true in Hk.
  split; [exact Hh|]. split; [|split; [|split]].
  - unfold AnnotationType_members. simpl in Hk |- *. tauto.
  - intros E. rewrite E in Hk. simpl in Hk.
    repeat match type of Hk with
           | _ \/ _ => destruct Hk as [Hk|Hk]
           end; try discriminate Hk; contradiction.
  - intros E. rewrite E in Hh. simpl in Hh.
    repeat match type of Hh with
           | _ \/ _ => destruct Hh as [Hh|Hh]
           end; try discriminate Hh; contradiction.
  - intros E. rewrite E in Hk. simpl in Hk.
    repeat match type of Hk with
           | _ \/ _ => destruct Hk as [Hk|Hk]
           end; try discriminate Hk; contradiction.
Qed.

(** X9. The hash is checked before the kind: for a document that is decoded
    without error and whose [hash] member holds [h] and [kind] member holds
    [k], one of them rejected, the error names [h] when [h] is rejected,
    whatever [k] is, and names [k] only when [h] is accepted. *)
Theorem UnmarshalJSON_hash_checked_first data doc a x h k :
  json_scan data = Some doc ->
  json_Unmarshal data Alias_zero = (x, None) ->
  memberValue doc Alias.FHash = Some (JString h) ->
  memberValue doc Alias.FKind = Some (JString k) ->
  HashType_Validate h = false \/ AnnotationType_Validate k = false ->
  UnmarshalJSON data a
  = (a, Some (if HashType_Validate h then invalidKind k else invalidHash h)).
Proof.
  intros Hscan Hdec Hh Hk Hbad.
  assert (exists members, doc = JObject members) as [members ->].
  { destruct doc; try discriminate Hh. eauto. }
  simpl in Hh, Hk.
  rewrite UnmarshalJSON_cases, Hdec.
  rewrite (json_Unmarshal_object _ _ _ Hscan) in Hdec.
  pose proof (decodeObject_stringOf Alias.FHash _ _ _ _ _ Hdec eq_refl) as Xh.
  pose proof (decodeObject_stringOf Alias.FKind _ _ _ _ _ Hdec eq_refl) as Xk.
  rewrite Hh in Xh. rewrite Hk in Xk. simpl in Xh, Xk.
  injection Xh as ->. injection Xk as ->.
  destruct (HashType_Validate h); simpl; [|reflexivity].
  destruct Hbad as [Hbad|Hbad]; [discriminate Hbad|].
  rewrite Hbad. reflexivity.
Qed.

(** X10. After [UnmarshalJSON] returned no error, a field of kind string
    ([Key], [Hash], [Host], [Tag], [Layer], [Kind], [Signature]) holds the
    string of the member of the document that names it, and the empty string
    when no member names it, whatever the receiver held in that field. *)
Theorem UnmarshalJSON_string_field data doc a a' f s0 :
  json_scan data = Some doc ->
  UnmarshalJSON data a = (a', None) ->
  Annotation_stringOf f a = Some s0 ->
  match memberValue doc f with
  | Some (JString s) => Annotation_stringOf f a' = Some s
  | Some _ => True
  | None => Annotation_stringOf f a' = Some ""
  end.
Proof.
  intros Hscan H Hf. rewrite UnmarshalJSON_cases in H.
  destruct (json_Unmarshal data Alias_zero) as [x [e|]] eqn:Hdec;
    [discriminate H|].
  destruct (HashType_Validate (Alias.Hash x)); simpl in H; [|discriminate H].
  destruct (AnnotationType_Validate (Alias.Kind x)); simpl in H;
    [|discriminate H].
  injection H as <-. rewrite Annotation_stringOf_assignAll.
  assert (stringOf f (Alias_zero : Alias.t ULID Time) = Some "") as Hz
    by (destruct f; simpl in Hf |- *; try discriminate Hf; reflexivity).
  unfold json_Unmarshal in Hdec. rewrite Hscan in Hdec.
  destruct doc as [| | | | |members]; try discriminate Hdec.
  - injection Hdec as <-. exact Hz.
  - simpl. exact (decodeObject_stringOf f _ _ _ _ _ Hdec Hz).
Qed.

End DecoderOutcome.

(** ** Further properties of the round trip *)

Section RoundTripOutcome.

Context {ULID Time : Type}.
Context {JU : JSONValue ULID} {JT : JSONValue Time} {S : Syntax}.

Implicit Types (x : Alias.t ULID Time) (a : Annotation.t ULID Time).

(** What [json.Unmarshal] makes of a marshalled annotation: the fields of
    the annotation, without error. *)
Lemma json_Unmarshal_marshalled a doc :
  findField "id" = Some Alias.FId ->
  findField "key" = Some Alias.FKey ->
  findField "hash" = Some Alias.FHash ->
  findField "host" = Some Alias.FHost ->
  findField "tag" = Some Alias.FTag ->
  findField "layer" = Some Alias.FLayer ->
  findField "kind" = Some Alias.FKind ->
  findField "signature" = Some Alias.FSignature ->
  findField "isSatisfied" = Some Alias.FIsSatisfied ->
  findField "timestamp" = Some Alias.FTimestamp ->
  encodeAnnotation a = Ok doc ->
  json_scan (json_print doc) = Some doc ->
  (forall j, encodeValue (Annotation.Id a) = Ok j ->
             decodeValue j zeroValue = Stored (Annotation.Id a)) ->
  (forall j, encodeValue (Annotation.Timestamp a) = Ok j ->
             decodeValue j zeroValue = Stored (Annotation.Timestamp a)) ->
  exists x,
    json_Unmarshal (json_print doc) Alias_zero = (x, None)
    /\ assignAll x = a.
Proof.
  intros K1 K2 K3 K4 K5 K6 K7 K8 K9 K10 Henc Hscan HU HT.
  destruct a as [id key hash host tag layer kind sig sat ts].
  unfold encodeAnnotation in Henc.
  cbn [Annotation.Id Annotation.Key Annotation.Hash Annotation.Host
       Annotation.Tag Annotation.Layer Annotation.Kind Annotation.Signature
       Annotation.IsSatisfied Annotation.Timestamp] in *.
  destruct (encodeValue id) as [jid|] eqn:Eid; [|discriminate].
  destruct (encodeValue ts) as [jts|] eqn:Ets; [|discriminate].
  injection Henc as <-.
  rewrite (json_Unmarshal_object _ _ _ Hscan). clear Hscan.
  specialize (HU _ eq_refl). specialize (HT _ eq_refl).
  cbn [app decodeObject]. rewrite K1.
  cbn [storeField Alias_zero Alias.Id]. rewrite HU. cbn [storeInto].
  rewrite decode_key, decode_hash, decode_host, decode_tag, decode_layer,
    decode_kind, decode_signature by (assumption || reflexivity).
  cbn [app decodeObject]. rewrite K9. simpl. rewrite K10. simpl.
  rewrite HT. simpl. eexists. split; reflexivity.
Qed.

(** X12. The round trip fails for every annotation whose [Hash] or [Kind] a
    validator rejects, the empty string and [sbom] among them: under what
    makes the round trip of an accepted annotation succeed, unmarshalling the
    marshalled annotation returns the error that names the rejected value,
    the hash first, and leaves the receiver as it was. *)
Theorem Annotation_roundtrip_rejected (a a0 : Annotation.t ULID Time)
    (doc : json) :
  findField "id" = Some Alias.FId ->
  findField "key" = Some Alias.FKey ->
  findField "hash" = Some Alias.FHash ->
  findField "host" = Some Alias.FHost ->
  findField "tag" = Some Alias.FTag ->
  findField "layer" = Some Alias.FLayer ->
  findField "kind" = Some Alias.FKind ->
  findField "signature" = Some Alias.FSignature ->
  findField "isSatisfied" = Some Alias.FIsSatisfied ->
  findField "timestamp" = Some Alias.FTimestamp ->
  encodeAnnotation a = Ok doc ->
  json_scan (json_print doc) = Some doc ->
  (forall j, encodeValue (Annotation.Id a) = Ok j ->
             decodeValue j zeroValue = Stored (Annotation.Id a)) ->
  (forall j, encodeValue (Annotation.Timestamp a) = Ok j ->
             decodeValue j zeroValue = Stored (Annotation.Timestamp a)) ->
  HashType_Validate (Annotation.Hash a) = false
  \/ AnnotationType_Validate (Annotation.Kind a) = false ->
  json_Marshal a = Ok (json_print doc)
  /\ UnmarshalJSON (json_print doc) a0
     = (a0, Some (if HashType_Validate (Annotation.Hash a)
                  then invalidKind (Annotation.Kind a)
                  else invalidHash (Annotation.Hash a))).
Proof.
  intros K1 K2 K3 K4 K5 K6 K7 K8 K9 K10 Henc Hscan HU HT Hbad.
  split; [unfold json_Marshal; now rewrite Henc|].
  destruct (json_Unmarshal_marshalled a doc K1 K2 K3 K4 K5 K6 K7 K8 K9 K10
              Henc Hscan HU HT) as (x & Hdec & <-).
  rewrite UnmarshalJSON_cases, Hdec. simpl in Hbad |- *.
  destruct (HashType_Validate (Alias.Hash x)); simpl; [|reflexivity].
  destruct Hbad as [Hbad|Hbad]; [discriminate Hbad|].
  rewrite Hbad. reflexivity.
Qed.

End RoundTripOutcome.

(** ** The properties on concrete documents *)

#[local] Existing Instance Ref.syntax.
#[local] Existing Instance Ref.ULID_JSONValue.
#[local] Existing Instance Ref.Time_JSONValue.
#[local] Existing Instance Ref.process.

Lemma UnmarshalJSON_rejects_invalid_witness :
  let a := Ref.annotation MD5Hash AnnotationPKI in
  exists e,
    UnmarshalJSON (Ref.doc "{'hash':'invalid','kind':'pki'}") a = (a, Some e)
    /\ forall (x : Alias.t Ref.ULID Ref.Time) r,
         json_Unmarshal (Ref.doc "{'hash':'invalid','kind':'pki'}") Alias_zero
         = (x, r) ->
         match r with
         | Some e' => e = e'
         | None => e = invalidHash (Alias.Hash x) \/ e = invalidKind "invalid"
         end.
Proof.
  intros a.
  apply (UnmarshalJSON_rejects_invalid
           (Ref.doc "{'hash':'invalid','kind':'pki'}")
           (JObject [("hash", JString "invalid"); ("kind", JString "pki")])
           a "invalid").
  - reflexivity.
  - left. split; reflexivity.
Defined.

Lemma UnmarshalJSON_layer_unchecked_witness :
  LayerType_Validate "invalid" = false
  /\ exists a',
       UnmarshalJSON
         (Ref.doc "{'hash':'md5','kind':'tls','layer':'invalid'}")
         (Ref.annotation NoHash AnnotationPKI) = (a', None)
       /\ Annotation.Layer a' = "invalid"
       /\ Annotation.Hash a' = "md5"
       /\ Annotation.Kind a' = "tls".
Proof.
  split; [reflexivity|].
  apply (UnmarshalJSON_layer_unchecked
           (Ref.doc "{'hash':'md5','kind':'tls','layer':'invalid'}")
           (JObject [("hash", JString "md5"); ("kind", JString "tls");
                     ("layer", JString "invalid")])
           (Ref.annotation NoHash AnnotationPKI)
           (Alias.set_Layer "invalid"
              (Alias.set_Kind "tls" (Alias.set_Hash "md5" Alias_zero))));
    reflexivity.
Defined.

Lemma UnmarshalJSON_missing_field_witness :
  let a := Ref.annotation MD5Hash AnnotationPKI in
  (exists e, UnmarshalJSON "{}" a = (a, Some e))
  /\ HashType_Validate "" = false
  /\ AnnotationType_Validate "" = false
  /\ forall x : Alias.t Ref.ULID Ref.Time,
       json_Unmarshal "{}" Alias_zero = (x, None) ->
       (memberValue (JObject []) Alias.FHash = None -> Alias.Hash x = "")
       /\ (memberValue (JObject []) Alias.FKind = None -> Alias.Kind x = "").
Proof.
  intros a.
  apply (UnmarshalJSON_missing_field "{}" (JObject []) a).
  - reflexivity.
  - left. reflexivity.
Defined.

(** The empty object and a document without [kind] are rejected with the
    error that names the empty value. *)
Example UnmarshalJSON_empty_object :
  let a := Ref.annotation MD5Hash AnnotationPKI in
  UnmarshalJSON "{}" a = (a, Some (invalidHash ""))
  /\ UnmarshalJSON (Ref.doc "{'hash':'sha256'}") a
     = (a, Some (invalidKind "")).
Proof. split; reflexivity. Qed.

(** Input that is not JSON and a member of the wrong type are rejected by
    [json.Unmarshal] itself. *)
Example UnmarshalJSON_malformed :
  let a := Ref.annotation MD5Hash AnnotationPKI in
  UnmarshalJSON (Ref.doc "{'hash':'md5',") a = (a, Some SyntaxError)
  /\ UnmarshalJSON (Ref.doc "{'hash':'md5','kind':'pki','isSatisfied':1}") a
     = (a, Some (UnmarshalTypeError "number" "bool" "Alias" "IsSatisfied")).
Proof. split; reflexivity. Qed.

(** The constructor on the example process: the tag of the application
    layer is the value of [TAG], the tag of another layer is empty, and an
    installed resolver wins where it answers. *)
Example NewAnnotation_tags :
  let resolver : TagValueGetter :=
    fun layer => ret (if layer =? Os then "kernel-6.1" else "") in
  let g := SetCurrentTagValueGetter resolver initGlobals in
  Annotation.Tag
    (fst (NewAnnotation initGlobals "k" MD5Hash "h" Application AnnotationTLS
            true Ref.world)) = "4f2a9c1"
  /\ Annotation.Tag
       (fst (NewAnnotation initGlobals "k" MD5Hash "h" Os AnnotationTLS true
               Ref.world)) = ""
  /\ Annotation.Tag
       (fst (NewAnnotation g "k" MD5Hash "h" Os AnnotationTLS true Ref.world))
     = "kernel-6.1"
  /\ Annotation.Tag
       (fst (NewAnnotation g "k" MD5Hash "h" Application AnnotationTLS true
               Ref.world)) = "4f2a9c1".
Proof. repeat split. Qed.

(** C2. Marshalling an [Annotation] and unmarshalling the result is claimed
    to give the annotation back for every valid pair of [Hash] and [Kind]. For
    the declared kind [sbom], with any of the three hash types,
    [UnmarshalJSON] rejects the marshalled annotation: the round trip fails
    with the error that names [sbom]. *)
Theorem roundtrip_sbom_rejected :
  forall a0 : Annotation.t Ref.ULID Ref.Time,
    let roundtrip a :=
      match json_Marshal a with
      | Ok data => UnmarshalJSON data a0
      | Err e => (a0, Some e)
      end in
    roundtrip (Ref.annotation MD5Hash AnnotationSBOM)
    = (a0, Some (invalidKind "sbom"))
    /\ roundtrip (Ref.annotation SHA256Hash AnnotationSBOM)
       = (a0, Some (invalidKind "sbom"))
    /\ roundtrip (Ref.annotation NoHash AnnotationSBOM)
       = (a0, Some (invalidKind "sbom")).
Proof. intros a0. repeat split. Qed.

Lemma Annotation_roundtrip_witness :
  let a := Ref.annotation SHA256Hash AnnotationTPM in
  exists data,
    json_Marshal a = Ok data
    /\ UnmarshalJSON data (Ref.annotation NoHash AnnotationPKI) = (a, None).
Proof.
  intros a.
  destruct (encodeAnnotation a) as [doc|e] eqn:Henc; [|discriminate Henc].
  exists (json_print doc).
  apply (Annotation_roundtrip a (Ref.annotation NoHash AnnotationPKI) doc);
    try reflexivity; try exact Henc.
  - injection Henc as <-. reflexivity.
  - intros j [= <-]. reflexivity.
  - intros j [= <-]. reflexivity.
Defined.

(** On the example annotation the round trip gives the annotation back for
    the three hash types and the eight kinds the validator accepts. *)
Example roundtrip_accepted_kinds :
  forall a0 : Annotation.t Ref.ULID Ref.Time,
    forallb
      (fun hash =>
         forallb
           (fun kind =>
              match json_Marshal (Ref.annotation hash kind) with
              | Ok data =>
                  match UnmarshalJSON data a0 with
                  | (a', None) =>
                      (Annotation.Hash a' =? hash)
                      && (Annotation.Kind a' =? kind)
                      && (Annotation.Key a'
                          =? Annotation.Key (Ref.annotation hash kind))
                  | (_, Some _) => false
                  end
              | Err _ => false
              end)
           [AnnotationPKI; AnnotationPKIHttp; AnnotationSource;
            AnnotationTLS; AnnotationTPM; AnnotationSourceCode;
            AnnotationChecksum; AnnotationVulnerability])
      HashType_members = true.
Proof. intros a0. vm_compute. reflexivity. Qed.

(** ** The further properties on concrete inputs *)

Lemma NewAnnotation_resolver_tag_witness :
  let resolver : TagValueGetter :=
    fun layer => ret (if layer =? Os then "kernel-6.1" else "") in
  Annotation.Tag
    (fst (NewAnnotation (SetCurrentTagValueGetter resolver initGlobals)
            "9e107d" MD5Hash "node-1" Os AnnotationTPM true Ref.world))
  = "kernel-6.1".
Proof.
  intros resolver.
  apply (NewAnnotation_resolver_tag initGlobals resolver "9e107d" MD5Hash
           "node-1" Os AnnotationTPM true Ref.world).
  simpl. discriminate.
Defined.

Lemma UnmarshalJSON_result_validated_witness :
  let a' : Annotation.t Ref.ULID Ref.Time :=
    assignAll (Alias.set_Kind "tls" (Alias.set_Hash "md5" Alias_zero)) in
  In (Annotation.Hash a') HashType_members
  /\ In (Annotation.Kind a') AnnotationType_members
  /\ Annotation.Kind a' <> AnnotationSBOM
  /\ Annotation.Hash a' <> ""
  /\ Annotation.Kind a' <> "".
Proof.
  intros a'.
  apply (UnmarshalJSON_result_validated
           (Ref.doc "{'hash':'md5','kind':'tls'}")
           (Ref.annotation NoHash AnnotationPKI) a').
  reflexivity.
Defined.

Lemma UnmarshalJSON_hash_checked_first_witness :
  let a := Ref.annotation NoHash AnnotationPKI in
  UnmarshalJSON (Ref.doc "{'kind':'sbom','hash':'sha1'}") a
  = (a, Some (invalidHash "sha1"))
  /\ UnmarshalJSON (Ref.doc "{'kind':'sbom','hash':'sha256'}") a
     = (a, Some (invalidKind "sbom")).
Proof.
  intros a. split.
  - apply (UnmarshalJSON_hash_checked_first
             (Ref.doc "{'kind':'sbom','hash':'sha1'}")
             (JObject [("kind", JString "sbom"); ("hash", JString "sha1")])
             a
             (Alias.set_Hash "sha1" (Alias.set_Kind "sbom" Alias_zero))
             "sha1" "sbom"); try reflexivity.
    left. reflexivity.
  - apply (UnmarshalJSON_hash_checked_first
             (Ref.doc "{'kind':'sbom','hash':'sha256'}")
             (JObject [("kind", JString "sbom"); ("hash", JString "sha256")])
             a
             (Alias.set_Hash "sha256" (Alias.set_Kind "sbom" Alias_zero))
             "sha256" "sbom"); try reflexivity.
    right. reflexivity.
Defined.

Lemma UnmarshalJSON_string_field_witness :
  let a := Ref.annotation NoHash AnnotationPKI in
  let a' : Annotation.t Ref.ULID Ref.Time :=
    assignAll
      (Alias.set_Host "node-2"
         (Alias.set_Kind "tls" (Alias.set_Hash "md5" Alias_zero))) in
  Annotation.Signature a = "c2lnbmVk"
  /\ Annotation_stringOf Alias.FSignature a' = Some ""
  /\ Annotation_stringOf Alias.FHost a' = Some "node-2".
Proof.
  intros a a'. split; [reflexivity|]. split.
  - exact (UnmarshalJSON_string_field
             (Ref.doc "{'hash':'md5','kind':'tls','host':'node-2'}")
             (JObject [("hash", JString "md5"); ("kind", JString "tls");
                       ("host", JString "node-2")])
             a a' Alias.FSignature "c2lnbmVk" eq_refl eq_refl eq_refl).
  - exact (UnmarshalJSON_string_field
             (Ref.doc "{'hash':'md5','kind':'tls','host':'node-2'}")
             (JObject [("hash", JString "md5"); ("kind", JString "tls");
                       ("host", JString "node-2")])
             a a' Alias.FHost "node-1" eq_refl eq_refl eq_refl).
Defined.

Lemma Annotation_roundtrip_rejected_witness :
  let a := Ref.annotation MD5Hash AnnotationSBOM in
  let a0 := Ref.annotation NoHash AnnotationPKI in
  exists data,
    json_Marshal a = Ok data
    /\ UnmarshalJSON data a0 = (a0, Some (invalidKind "sbom")).
Proof.
  intros a a0.
  destruct (encodeAnnotation a) as [doc|e] eqn:Henc; [|discriminate Henc].
  exists (json_print doc).
  apply (Annotation_roundtrip_rejected a a0 doc);
    try reflexivity; try exact Henc.
  - injection Henc as <-. reflexivity.
  - intros j [= <-]. reflexivity.
  - intros j [= <-]. reflexivity.
  - right. reflexivity.
Defined.

(** C9 as it was stated, for every JSON document with an accepted hash and
    kind, does not hold: the document
    {'hash':'md5','kind':'tls','layer':'invalid','key':5} is valid JSON, its
    hash and kind are accepted, and [UnmarshalJSON] fails on it, because
    [json.Unmarshal] reports the number given for the string field [Key]
    before any validation takes place. *)
Lemma UnmarshalJSON_layer_counterexample :
  ~ (forall (data : string) (doc : json)
            (a : Annotation.t Ref.ULID Ref.Time) (h k l : string),
        json_scan data = Some doc ->
        memberValue doc Alias.FHash = Some (JString h) ->
        HashType_Validate h = true ->
        memberValue doc Alias.FKind = Some (JString k) ->
        AnnotationType_Validate k = true ->
        memberValue doc Alias.FLayer = Some (JString l) ->
        exists a',
          UnmarshalJSON data a = (a', None) /\ Annotation.Layer a' = l).
Proof.
  intros H.
  destruct (H (Ref.doc "{'hash':'md5','kind':'tls','layer':'invalid','key':5}")
              (JObject [("hash", JString "md5"); ("kind", JString "tls");
                        ("layer", JString "invalid"); ("key", JNumber "5")])
              (Ref.annotation NoHash AnnotationPKI) "md5" "tls" "invalid"
              eq_refl eq_refl eq_refl eq_refl eq_refl eq_refl)
    as (a' & Hu & _).
  discriminate Hu.
Qed.

(** The error on that document is the type mismatch of [json.Unmarshal], and
    the receiver is left as it was. *)
Example UnmarshalJSON_layer_type_mismatch :
  let a := Ref.annotation NoHash AnnotationPKI in
  UnmarshalJSON
    (Ref.doc "{'hash':'md5','kind':'tls','layer':'invalid','key':5}") a
  = (a, Some (UnmarshalTypeError "number" "string" "Alias" "Key")).
Proof. reflexivity. Qed.
